(** * Stream-source resolution of the Area-51 providers

    A shallow embedding of the three provider resolvers
    ([providers/XVideos/resolver.py], [providers/XNXX/resolver.py],
    [providers/xHamster/resolver.py]) and the properties of their
    candidate collection, filtering and result assembly.

    Text is modelled by 8-bit strings and stands for ASCII text, on which
    the embedding of the string methods and of the regular expressions is
    exact. Python's case mapping, its classes [\s], [\w], [\d] and the
    case folding of [re.IGNORECASE] also reach characters outside ASCII
    (other decimal digits, the no-break space, the long s); the definitions
    below leave every character above 127 alone. The statements about the
    digits matched by [\d] are made for ASCII text, by the hypothesis
    [ascii_text]. *)

From Stdlib Require Import Strings.String Strings.Ascii ZArith Bool Lia.
From stdpp Require Import base list strings gmap sets.

Open Scope string_scope.
Open Scope list_scope.

(** ** Python values, exceptions and string primitives *)

Module Py.

(** The exceptions named by the resolvers' handlers or raised by the
    operations they apply to decoded JSON. [JSONDecodeError] is a subclass
    of [ValueError]; every constructor is an [Exception]. *)
Inductive exn : Type :=
| JSONDecodeError
| ValueError
| KeyError
| TypeError
| AttributeError
| RecursionError.

(** Outcome of a Python expression: a value, or a raised exception. *)
Inductive res (A : Type) : Type :=
| Ret (a : A)
| Raise (e : exn).
Arguments Ret {A} a.
Arguments Raise {A} e.

Definition bind {A B : Type} (m : res A) (f : A -> res B) : res B :=
  match m with
  | Ret a => f a
  | Raise e => Raise e
  end.

(** [try: m except <classes>: h] where [caught] decides the classes. *)
Definition try_except {A : Type} (m : res A) (caught : exn -> bool)
    (h : exn -> res A) : res A :=
  match m with
  | Ret a => Ret a
  | Raise e => if caught e then h e else Raise e
  end.

Definition is_Exception (e : exn) : bool := true.

Definition is_JSONDecodeError (e : exn) : bool :=
  match e with JSONDecodeError => true | _ => false end.

Definition is_ValueError (e : exn) : bool :=
  match e with JSONDecodeError | ValueError => true | _ => false end.

Definition is_KeyError (e : exn) : bool :=
  match e with KeyError => true | _ => false end.

Definition is_AttributeError (e : exn) : bool :=
  match e with AttributeError => true | _ => false end.

(** Values produced by [json.loads]: [None], booleans, integers, floats
    (a decimal mantissa and exponent), strings, lists and dictionaries.
    A dictionary is kept as its items, looked up from the left. *)
#[warnings="-register-all"]
Inductive pyval : Type :=
| PNone
| PBool (b : bool)
| PInt (z : Z)
| PFloat (m e : Z)
| PStr (s : string)
| PList (l : list pyval)
| PDict (kv : list (string * pyval)).

(** Truth value of an object, as tested by [if x:] and [not x]. *)
Definition truthy (v : pyval) : bool :=
  match v with
  | PNone => false
  | PBool b => b
  | PInt z => negb (z =? 0)%Z
  | PFloat m _ => negb (m =? 0)%Z
  | PStr s => negb (String.eqb s "")
  | PList l => match l with [] => false | _ => true end
  | PDict kv => match kv with [] => false | _ => true end
  end.

(** [d.get(k)] on the items of a dictionary. *)
Fixpoint dict_get (k : string) (kv : list (string * pyval)) : option pyval :=
  match kv with
  | [] => None
  | (k', v) :: rest => if String.eqb k k' then Some v else dict_get k rest
  end.

(** [x or y]. *)
Definition py_or (x y : pyval) : pyval := if truthy x then x else y.

Definition lower_ascii (c : ascii) : ascii :=
  let n := nat_of_ascii c in
  if ((65 <=? n) && (n <=? 90))%nat then ascii_of_nat (n + 32) else c.

Definition upper_ascii (c : ascii) : ascii :=
  let n := nat_of_ascii c in
  if ((97 <=? n) && (n <=? 122))%nat then ascii_of_nat (n - 32) else c.

(** [s.lower()] and [s.upper()]. *)
Fixpoint lower (s : string) : string :=
  match s with
  | EmptyString => EmptyString
  | String c s' => String (lower_ascii c) (lower s')
  end.

Fixpoint upper (s : string) : string :=
  match s with
  | EmptyString => EmptyString
  | String c s' => String (upper_ascii c) (upper s')
  end.

(** [s.startswith(p)]. *)
Definition startswith (s p : string) : bool := String.prefix p s.

(** [s.endswith(p)]. *)
Fixpoint endswith (s p : string) : bool :=
  String.eqb p s ||
  match s with
  | EmptyString => false
  | String _ s' => endswith s' p
  end.

(** [sub in s]. *)
Fixpoint str_in (sub s : string) : bool :=
  String.prefix sub s ||
  match s with
  | EmptyString => false
  | String _ s' => str_in sub s'
  end.

(** [any(t in s for t in toks)]. *)
Definition any_in (toks : list string) (s : string) : bool :=
  existsb (fun t => str_in t s) toks.

(** [s.replace(old, new)] for a non-empty [old]: the occurrences of [old]
    are replaced from the left without overlap. [skip] counts the
    characters of an occurrence still to be passed over. *)
Fixpoint replace_from (old new : string) (skip : nat) (s : string) : string :=
  match s with
  | EmptyString => EmptyString
  | String c s' =>
      match skip with
      | S k => replace_from old new k s'
      | O =>
          if String.prefix old s
          then new +:+ replace_from old new (String.length old - 1) s'
          else String c (replace_from old new 0 s')
      end
  end.

Definition replace (s old new : string) : string := replace_from old new 0 s.

End Py.

(** ** Regular expressions: the fragment of [re] used by the resolvers *)

Module Re.

(** Patterns: literals, character classes, concatenation, the greedy
    [?], [*] and [+], the lazy [+?], and numbered capture groups. *)
Inductive re : Type :=
| Eps
| Chr (c : ascii)
| Cls (p : ascii -> bool)
| Cat (r1 r2 : re)
| Opt (r : re)
| Star (r : re)
| LazyStar (r : re)
| Grp (i : nat) (r : re).

Definition Plus (r : re) : re := Cat r (Star r).
Definition LazyPlus (r : re) : re := Cat r (LazyStar r).

Fixpoint Lit (s : string) : re :=
  match s with
  | EmptyString => Eps
  | String c s' => Cat (Chr c) (Lit s')
  end.

Fixpoint Seq (rs : list re) : re :=
  match rs with
  | [] => Eps
  | r :: rs' => Cat r (Seq rs')
  end.

(** Character classes. [is_space], [is_digit] and [is_word] are the ASCII
    members of [\s], [\d] and [\w]. *)
Definition one_of (cs : string) (c : ascii) : bool :=
  existsb (Ascii.eqb c) (list_ascii_of_string cs).
Definition none_of (cs : string) (c : ascii) : bool := negb (one_of cs c).
Definition any_char (c : ascii) : bool := true.
Definition is_space (c : ascii) : bool :=
  let n := nat_of_ascii c in
  (((9 <=? n) && (n <=? 13)) || ((28 <=? n) && (n <=? 32)))%nat.
Definition is_digit (c : ascii) : bool :=
  let n := nat_of_ascii c in ((48 <=? n) && (n <=? 57))%nat.
Definition is_word (c : ascii) : bool :=
  let n := nat_of_ascii c in
  (((48 <=? n) && (n <=? 57)) || ((65 <=? n) && (n <=? 90)) ||
   ((97 <=? n) && (n <=? 122)) || (n =? 95))%nat.

(** Captured groups, by number. *)
Definition caps : Type := list (nat * string).

Fixpoint group (i : nat) (g : caps) : string :=
  match g with
  | [] => ""
  | (j, s) :: g' => if Nat.eqb i j then s else group i g'
  end.

(** The text consumed between [s] and its suffix [s']. *)
Definition consumed (s s' : string) : string :=
  substring 0 (String.length s - String.length s') s.

(** Comparison of a pattern character with a text character; under
    [re.IGNORECASE] the two are compared up to the case of the ASCII
    letters. *)
Definition chr_eq (ic : bool) (c d : ascii) : bool :=
  if ic then Ascii.eqb (Py.lower_ascii c) (Py.lower_ascii d) else Ascii.eqb c d.

(** Backtracking matcher in continuation-passing style: [m ic r s g k]
    matches [r] at the start of [s] and hands the rest of the text to [k];
    when [k] fails the next alternative of [r] is tried, greedy operators
    trying the longer match first and lazy ones the shorter. [ic] is
    [re.IGNORECASE]. *)
Fixpoint m {R : Type} (ic : bool) (r : re) (s : string) (g : caps)
    (k : string -> caps -> option R) {struct r} : option R :=
  match r with
  | Eps => k s g
  | Chr c =>
      match s with
      | String d s' => if chr_eq ic c d then k s' g else None
      | EmptyString => None
      end
  | Cls p =>
      match s with
      | String d s' => if p d then k s' g else None
      | EmptyString => None
      end
  | Cat r1 r2 => m ic r1 s g (fun s' g' => m ic r2 s' g' k)
  | Opt r1 =>
      match m ic r1 s g k with
      | Some x => Some x
      | None => k s g
      end
  | Star r1 =>
      (fix loop (n : nat) (s : string) (g : caps) {struct n} : option R :=
         match n with
         | O => k s g
         | S n' =>
             match m ic r1 s g
                     (fun s' g' =>
                        if (String.length s' <? String.length s)%nat
                        then loop n' s' g' else None) with
             | Some x => Some x
             | None => k s g
             end
         end) (String.length s) s g
  | LazyStar r1 =>
      (fix loop (n : nat) (s : string) (g : caps) {struct n} : option R :=
         match k s g with
         | Some x => Some x
         | None =>
             match n with
             | O => None
             | S n' =>
                 m ic r1 s g
                   (fun s' g' =>
                      if (String.length s' <? String.length s)%nat
                      then loop n' s' g' else None)
             end
         end) (String.length s) s g
  | Grp i r1 => m ic r1 s g (fun s' g' => k s' ((i, consumed s s') :: g'))
  end.

(** A match of [r] at the start of [s]: the groups and the remaining text. *)
Definition match_here (ic : bool) (r : re) (s : string) : option (caps * string) :=
  m ic r s [] (fun s' g => Some (g, s')).

(** [re.search(r, s)]: the leftmost match, as its groups. *)
Fixpoint search (ic : bool) (r : re) (s : string) : option caps :=
  match match_here ic r s with
  | Some (g, _) => Some g
  | None =>
      match s with
      | EmptyString => None
      | String _ s' => search ic r s'
      end
  end.

(** [re.findall(r, s)]: the groups of the successive non-overlapping
    matches, scanning from the left. *)
Fixpoint findall_fuel (fuel : nat) (ic : bool) (r : re) (s : string) : list caps :=
  match fuel with
  | O => []
  | S f =>
      match match_here ic r s with
      | Some (g, s') =>
          g :: (if (String.length s' <? String.length s)%nat
                then findall_fuel f ic r s'
                else match s with
                     | EmptyString => []
                     | String _ t => findall_fuel f ic r t
                     end)
      | None =>
          match s with
          | EmptyString => []
          | String _ t => findall_fuel f ic r t
          end
      end
  end.

Definition findall (ic : bool) (r : re) (s : string) : list caps :=
  findall_fuel (S (String.length s)) ic r s.

(** [re.sub(r, repl, s)] with the replacement computed from the groups. *)
Fixpoint sub_fuel (fuel : nat) (r : re) (repl : caps -> string) (s : string) : string :=
  match fuel with
  | O => s
  | S f =>
      match match_here false r s with
      | Some (g, s') =>
          if (String.length s' <? String.length s)%nat
          then repl g +:+ sub_fuel f r repl s'
          else match s with
               | EmptyString => repl g
               | String c t => repl g +:+ String c (sub_fuel f r repl t)
               end
      | None =>
          match s with
          | EmptyString => EmptyString
          | String c t => String c (sub_fuel f r repl t)
          end
      end
  end.

Definition sub (r : re) (repl : caps -> string) (s : string) : string :=
  sub_fuel (S (String.length s)) r repl s.

End Re.

(** ** Candidate sources and URL metadata *)

Import Py.

(** What [extract_metadata_from_url] returns: the keys the resolvers read. *)
Record metadata : Type := Metadata {
  md_quality : pyval;
  md_format : string
}.

(** A candidate source: the dictionary with keys url, quality, format built
    by the resolvers from a URL and its metadata. *)
Record source : Type := Source {
  url : string;
  quality : pyval;
  format : string
}.

(** The dictionary made of the key url followed by the metadata items. *)
Definition mk_source (u : string) (md : metadata) : source :=
  Source u (md_quality md) (md_format md).

(** [metadata["quality"] = q]. *)
Definition set_quality (md : metadata) (q : pyval) : metadata :=
  Metadata q (md_format md).

(** [if not metadata["quality"]: metadata["quality"] = default]. *)
Definition or_default (md : metadata) (default : string) : metadata :=
  if truthy (md_quality md) then md else set_quality md (PStr default).

(** The fallback of the XNXX strategies when nothing gives a quality:
    adaptive for HLS, 480p otherwise. *)
Definition final_fallback (md : metadata) : metadata :=
  if String.eqb (md_format md) "m3u8"
  then set_quality md (PStr "adaptive")
  else set_quality md (PStr "480p").

Definition double_quote : ascii := ascii_of_nat 34.

Module QualityUtils.

(** The pattern of a resolution token: one to four digits and the letter p. *)
Definition resolution_token : Re.re :=
  let d := Re.Cls Re.is_digit in
  Re.Grp 1 (Re.Seq [d; Re.Opt (Re.Cat d (Re.Opt (Re.Cat d (Re.Opt d)))); Re.Chr "p"]).

(** Modelled from the spec: [quality_utils.extract_metadata_from_url] is
    not among the sources. The format is m3u8 for a URL containing .m3u8,
    mp4 for one containing mp4, unknown otherwise; the quality is the
    first resolution token of the URL, or empty when there is none. *)
Definition extract_metadata_from_url (u : string) : metadata :=
  let fmt :=
    if str_in ".m3u8" u then "m3u8"
    else if str_in "mp4" u then "mp4"
    else "unknown" in
  let q :=
    match Re.search false resolution_token u with
    | Some g => Re.group 1 g
    | None => ""
    end in
  Metadata (PStr q) fmt.

End QualityUtils.

(** ** The transport collaborator and the result dictionary *)

Abbreviation headers := (gmap string string).

(** What one call of [AuthTokens.fetch_with_fallback] leaves behind: the
    page text (or nothing), the session with its header mapping (or no
    session), the method that succeeded and the headers rendered for the
    player by [get_ffmpeg_headers]. *)
Record fetched : Type := Fetched {
  page : option string;
  session : option headers;
  method : string;
  ffmpeg_headers : headers
}.

(** Values stored in [resolve_result]. *)
Inductive rval : Type :=
| RStr (s : string)
| RSession (s : option headers)
| RHeaders (h : headers).

(** The fields of a resolver object read by [resolve_url]. *)
Record resolver : Type := Resolver {
  self_url : string;
  self_quality : string;
  self_av1 : bool;
  self_resolve_result : gmap string rval
}.

(** [self.resolve_result.update({...})] with the four keys every provider
    writes. *)
Definition update_result (r : gmap string rval) (resolved_url : string)
    (sess : option headers) (ffmpeg : headers) (recorder_id : string)
    : gmap string rval :=
  <["recorder_id" := RStr recorder_id]>
    (<["ffmpeg_headers" := RHeaders ffmpeg]>
       (<["session" := RSession sess]>
          (<["resolved_url" := RStr resolved_url]> r))).

(** [not html] for the text-or-None returned by the fetch. *)
Definition no_text (html : option string) : bool :=
  match html with
  | None => true
  | Some t => String.eqb t ""
  end.

(** [x in d] and [d[k]] for a string key on a decoded JSON value. *)
Definition py_contains (k : string) (v : pyval) : res bool :=
  match v with
  | PDict kv => Ret (match dict_get k kv with Some _ => true | None => false end)
  | PList l =>
      Ret (existsb (fun x => match x with PStr s => String.eqb s k | _ => false end) l)
  | PStr s => Ret (str_in k s)
  | _ => Raise TypeError
  end.

Definition py_getitem (v : pyval) (k : string) : res pyval :=
  match v with
  | PDict kv => match dict_get k kv with Some x => Ret x | None => Raise KeyError end
  | _ => Raise TypeError
  end.

(** The content URL of a decoded JSON-LD object, as the text of a
    candidate's URL. The embedding keeps URLs as strings, so a candidate
    whose URL is another JSON value (a number, a list, [None]) is not
    expressible in it, and the statement that records such a candidate is
    given the outcome [Raise TypeError]. In XNXX that outcome agrees with
    the source on what [resolve_url] returns when the metadata extractor
    accepts the value: the de-duplication loop (lines 159 to 161) hashes
    the value and calls [startswith] on it, which raises for every value
    that is not a [str], and the handler of [resolve_url] turns the
    exception into [None]. In XVideos it is the bound of the embedding:
    what becomes of such a candidate depends on collaborators that are not
    among the sources. The statements about the JSON-LD steps are made for
    a content URL that is a string. *)
Definition as_url (v : pyval) : res string :=
  match v with
  | PStr s => Ret s
  | _ => Raise TypeError
  end.

(** ** XVideos *)

Module XVideos.

Definition setter (name : string) : Re.re :=
  Re.Seq [Re.Lit ("html5player." +:+ name +:+ "('");
          Re.Grp 1 (Re.Plus (Re.Cls (Re.none_of "'")));
          Re.Lit "')"].

Definition player_config_pattern : Re.re := setter "setVideoHLS".
Definition mp4_low_pattern : Re.re := setter "setVideoUrlLow".
Definition mp4_high_pattern : Re.re := setter "setVideoUrlHigh".

Definition json_ld_pattern : Re.re :=
  Re.Seq [Re.Lit "<script type="; Re.Chr double_quote;
          Re.Lit "application/ld+json"; Re.Chr double_quote; Re.Chr ">";
          Re.Grp 1 (Re.Plus (Re.Cls (Re.none_of "<")));
          Re.Lit "</script>"].

Section Resolver.

Variable extract_metadata_from_url : string -> metadata.
Variable json_loads : string -> res pyval.
Variable select_best_source : list source -> string -> bool -> bool -> option source.
Variable determine_recorder_id : string -> string.
Variable fetch_with_fallback : string -> string -> fetched.

(** One setter strategy: [re.search], then the candidate with the
    strategy's default quality when the URL gives none. *)
Definition setter_sources (pat : Re.re) (default : string) (html : string)
    : list source :=
  match Re.search false pat html with
  | Some g =>
      let u := Re.group 1 g in
      if negb (String.eqb u "")
      then [mk_source u (or_default (extract_metadata_from_url u) default)]
      else []
  | None => []
  end.

(** Methods 1 and 2: the HLS, low and high setters, in this order. *)
Definition player_sources (html : string) : list source :=
  setter_sources player_config_pattern "adaptive" html ++
  setter_sources mp4_low_pattern "360p" html ++
  setter_sources mp4_high_pattern "720p" html.

(** Method 4: the JSON-LD block, added when its URL is not yet known. *)
Definition json_ld_sources (sources : list source) (text : string)
    : res (list source) :=
  try_except
    (bind (json_loads text) (fun json_ld =>
     bind (py_contains "contentUrl" json_ld) (fun has =>
       if has then
         bind (py_getitem json_ld "contentUrl") (fun content_url =>
           if existsb (fun s => match content_url with
                                | PStr u => String.eqb (url s) u
                                | _ => false
                                end) sources
           then Ret sources
           else
             bind (as_url content_url) (fun u =>
               Ret (sources ++
                    [mk_source u (or_default (extract_metadata_from_url u) "720p")])))
       else Ret sources)))
    is_JSONDecodeError (fun _ => Ret sources).

Definition extract_body (html : string) : res (list source) :=
  let sources := player_sources html in
  match Re.search false json_ld_pattern html with
  | Some g => json_ld_sources sources (Re.group 1 g)
  | None => Ret sources
  end.

(** [_extract_sources]: any exception empties the result. *)
Definition _extract_sources (html : string) : list source :=
  match extract_body html with
  | Ret sources => sources
  | Raise _ => []
  end.

Definition resolve_body (self : resolver) : res (option (gmap string rval)) :=
  let f := fetch_with_fallback (self_url self) "https://www.xvideos.com" in
  if no_text (page f) then Ret None
  else
    let html := default "" (page f) in
    match _extract_sources html with
    | [] => Ret None
    | sources =>
        let best_source :=
          select_best_source sources (self_quality self) true (self_av1 self) in
        let resolved_url :=
          match best_source with
          | Some b => url b
          | None => self_url self
          end in
        let recorder_id := determine_recorder_id resolved_url in
        Ret (Some (update_result (self_resolve_result self) resolved_url
                     (session f) (ffmpeg_headers f) recorder_id))
    end.

(** [resolve_url]: the body runs under [except Exception: return None]. *)
Definition resolve_url (self : resolver) : res (option (gmap string rval)) :=
  try_except (resolve_body self) is_Exception (fun _ => Ret None).

End Resolver.

End XVideos.

(** ** XNXX *)

Module XNXX.

(** A [<source>] element found under a [<video>]: the attributes read. *)
Record source_tag : Type := SourceTag {
  attr_src : option string;
  attr_label : option string;
  attr_data_res : option string
}.

Definition quotes : string := String double_quote "'".
Definition Q : Re.re := Re.Cls (Re.one_of quotes).
Definition NQ : Re.re := Re.Cls (Re.none_of quotes).
Definition WS : Re.re := Re.Star (Re.Cls Re.is_space).

(** A setter call of [html5player] with a quoted argument: the name, an
    opening parenthesis, a quote, the captured run of non-quote characters
    and a quote. *)
Definition setter (name : string) : Re.re :=
  Re.Seq [Re.Lit ("html5player." +:+ name +:+ "("); Q; Re.Grp 1 (Re.Plus NQ); Q].

(** A quoted key, optional closing quote, a separator among [seps] with
    optional blanks around it, and a quoted value that contains [ext]
    after at least one character; the value is captured. *)
Definition keyed (key seps ext : string) : Re.re :=
  Re.Seq [Q; Re.Lit key; Re.Opt Q; WS; Re.Cls (Re.one_of seps); WS; Q;
          Re.Grp 1 (Re.Seq [Re.Plus NQ; Re.Lit ext; Re.Star NQ]); Q].

Definition js_patterns : list (Re.re * string) :=
  [ (setter "setVideoUrlLow", "360p");
    (setter "setVideoUrlHigh", "720p");
    (setter "setVideoHLS", "adaptive");
    (setter "setVideoUrl1080p", "1080p");
    (setter "setVideoUrl720p", "720p");
    (setter "setVideoUrl480p", "480p");
    (setter "setVideoUrl360p", "360p");
    (setter "setVideoUrl240p", "240p");
    (Re.Seq [Re.Lit "setVideoUrl("; Q; Re.Grp 1 (Re.Plus NQ); Q], "Unknown");
    (Re.Seq [Re.Lit "video_url"; Re.Opt Q; WS; Re.Cls (Re.one_of ":="); WS; Q;
             Re.Grp 1 (Re.Plus NQ); Q], "Unknown");
    (keyed "url" ":" ".mp4", "Unknown");
    (keyed "file" ":" ".mp4", "Unknown");
    (keyed "hls" ":=" ".m3u8", "adaptive");
    (keyed "url" ":=" ".m3u8", "adaptive") ].

(** The clean-up of a matched URL: JSON unescaping, then the upgrade of a
    protocol-relative URL. *)
Definition unescape (s : string) : string :=
  replace (replace s "\/" "/") "\" "".

Definition upgrade (s : string) : string :=
  if startswith s "//" then "https:" +:+ s else s.

Definition media_indicators : list string := [".mp4"; ".m3u8"; "video"; "stream"].

(** The test of the de-duplication loop on one candidate URL. *)
Definition keeps (seen_urls : gset string) (source_url : string) : bool :=
  negb (bool_decide (source_url ∈ seen_urls)) &&
  startswith source_url "http" &&
  any_in media_indicators (lower source_url).

Definition filter_step (st : list source * gset string) (s : source)
    : list source * gset string :=
  let '(unique_sources, seen_urls) := st in
  if keeps seen_urls (url s)
  then (unique_sources ++ [s], {[url s]} ∪ seen_urls)
  else (unique_sources, seen_urls).

(** "Remove duplicates and invalid URLs": the list handed to the ranker. *)
Definition unique_sources (sources : list source) : list source :=
  fst (fold_left filter_step sources ([], ∅)).

Section Resolver.

Variable extract_metadata_from_url : string -> metadata.
Variable json_loads : string -> res pyval.
Variable select_best_source : list source -> string -> bool -> bool -> option source.
Variable determine_recorder_id : string -> string.
Variable fetch_with_fallback : string -> string -> fetched.
(** [soup.find_all("script", type="application/ld+json")], as the text of
    each script, and the [<source>] children of the [<video>] elements, in
    document order. *)
Variable ld_json_scripts : string -> list string.
Variable video_source_tags : string -> list source_tag.
Variable urljoin : string -> string -> string.

(** Method 1, one match of one pattern. *)
Definition js_candidate (default_quality : string) (mtch : string) : list source :=
  if negb (String.eqb mtch "") && (str_in "http" mtch || startswith mtch "//")
  then
    let clean_url := upgrade (unescape mtch) in
    let metadata := extract_metadata_from_url clean_url in
    let metadata :=
      if negb (truthy (md_quality metadata)) && negb (String.eqb default_quality "Unknown")
      then set_quality metadata (PStr default_quality)
      else if negb (truthy (md_quality metadata))
      then final_fallback metadata
      else metadata in
    [mk_source clean_url metadata]
  else [].

Definition js_pattern_sources (html : string) (p : Re.re * string) : list source :=
  flat_map (fun g => js_candidate (snd p) (Re.group 1 g)) (Re.findall true (fst p) html).

Definition js_sources (html : string) : list source :=
  flat_map (js_pattern_sources html) js_patterns.

(** Method 2, one JSON-LD script. *)
Definition json_ld_step (sources : list source) (text : string) : res (list source) :=
  try_except
    (bind (json_loads text) (fun data =>
       match data with
       | PDict kv =>
           match dict_get "contentUrl" kv with
           | Some v =>
               bind (as_url v) (fun u =>
                 Ret (sources ++
                      [mk_source u (or_default (extract_metadata_from_url u) "480p")]))
           | None => Ret sources
           end
       | _ => Ret sources
       end))
    (fun e => is_ValueError e || is_KeyError e) (fun _ => Ret sources).

Fixpoint json_ld_sources (sources : list source) (texts : list string)
    : res (list source) :=
  match texts with
  | [] => Ret sources
  | t :: rest => bind (json_ld_step sources t) (fun s => json_ld_sources s rest)
  end.

(** Method 3, one [<source>] element. *)
Definition dom_candidate (page_url : string) (t : source_tag) : list source :=
  match attr_src t with
  | None => []
  | Some src =>
      if String.eqb src "" then []
      else
        let src :=
          if negb (startswith src "http")
          then (if startswith src "//" then "https:" +:+ src else urljoin page_url src)
          else src in
        let metadata := extract_metadata_from_url src in
        let source_quality := default "" (attr_label t) in
        let source_quality :=
          if String.eqb source_quality "" then default "" (attr_data_res t)
          else source_quality in
        let source_quality :=
          if negb (String.eqb source_quality "") &&
             (str_in "HLS" (upper source_quality) || String.eqb (upper source_quality) "HLS")
          then "adaptive" else source_quality in
        let metadata :=
          if negb (String.eqb source_quality "")
          then set_quality metadata (PStr source_quality)
          else if negb (truthy (md_quality metadata))
          then final_fallback metadata
          else metadata in
        [mk_source src metadata]
  end.

(** The candidates of the three methods, before filtering. *)
Definition collect (page_url html : string) : res (list source) :=
  bind (json_ld_sources (js_sources html) (ld_json_scripts html)) (fun sources =>
    Ret (sources ++ flat_map (dom_candidate page_url) (video_source_tags html))).

Definition resolve_body (self : resolver) : res (option (gmap string rval)) :=
  let f := fetch_with_fallback (self_url self) "https://www.xnxx.com" in
  if no_text (page f) then Ret None
  else
    let html := default "" (page f) in
    bind (collect (self_url self) html) (fun sources =>
      match unique_sources sources with
      | [] => Ret None
      | us =>
          let best_source :=
            select_best_source us (self_quality self) true (self_av1 self) in
          let resolved_url :=
            match best_source with
            | Some b => url b
            | None => self_url self
            end in
          let recorder_id := determine_recorder_id resolved_url in
          Ret (Some (update_result (self_resolve_result self) resolved_url
                       (session f) (ffmpeg_headers f) recorder_id))
      end).

(** [resolve_url]: the body runs under [except Exception: return None]. *)
Definition resolve_url (self : resolver) : res (option (gmap string rval)) :=
  try_except (resolve_body self) is_Exception (fun _ => Ret None).

End Resolver.

End XNXX.

(** ** xHamster *)

Module XHamster.

Definition DQ : Re.re := Re.Chr double_quote.
Definition NDQ : Re.re := Re.Cls (Re.none_of (String double_quote "")).
Definition WS : Re.re := Re.Star (Re.Cls Re.is_space).
Definition ANY : Re.re := Re.Cls Re.any_char.

(** Method 1: a url key and, before the next closing brace, a label key,
    both with double-quoted values; the two values are captured. *)
Definition json_pattern : Re.re :=
  Re.Seq [DQ; Re.Lit "url"; DQ; Re.Chr ":"; DQ; Re.Grp 1 (Re.Plus NDQ); DQ;
          Re.Star (Re.Cls (Re.none_of "}"));
          DQ; Re.Lit "label"; DQ; Re.Chr ":"; DQ; Re.Grp 2 (Re.Plus NDQ); DQ].

Definition braces : Re.re :=
  Re.Grp 1 (Re.Seq [Re.Chr "{"; Re.LazyPlus ANY; Re.Chr "}"]).

(** Method 2: the player initialisation formats, matched with [re.DOTALL]. *)
Definition player_patterns : list Re.re :=
  [ Re.Seq [Re.Lit "window.initPlayer"; WS; Re.Chr "("; WS; braces; WS; Re.Chr ")"];
    Re.Seq [Re.Lit "initPlayer"; WS; Re.Chr "("; WS; braces; WS; Re.Chr ")"];
    Re.Seq [Re.Lit "playerInitConfig"; WS; Re.Chr "="; WS; braces; Re.Chr ";"];
    Re.Seq [Re.Lit "sources"; WS; Re.Chr ":"; WS;
            Re.Grp 1 (Re.Seq [Re.Chr "["; Re.LazyPlus ANY; Re.Chr "]"])] ].

(** The repair of a rejected player object: bare keys are quoted, then
    single quotes become double quotes. *)
Definition bare_key : Re.re :=
  Re.Seq [Re.Grp 1 (Re.Cls (Re.one_of "{,")); WS;
          Re.Grp 2 (Re.Plus (Re.Cls Re.is_word)); Re.Chr ":"].

Definition fix_json (s : string) : string :=
  let dq := String double_quote "" in
  replace
    (Re.sub bare_key (fun g => Re.group 1 g +:+ dq +:+ Re.group 2 g +:+ dq +:+ ":") s)
    "'" dq.

Definition url_char (c : ascii) : bool :=
  negb (Re.is_space c) && Re.none_of (String double_quote "<>") c.

(** Method 3: absolute URLs of the video hosts that contain .mp4. *)
Definition mp4_pattern : Re.re :=
  Re.Grp 1 (Re.Seq [Re.Lit "http"; Re.Opt (Re.Chr "s"); Re.Lit "://video";
                    Re.Star (Re.Cls url_char); Re.Lit ".mp4"; Re.Star (Re.Cls url_char)]).

(** Method 4: absolute URLs that contain .m3u8. *)
Definition hls_patterns : list Re.re :=
  [ Re.Grp 1 (Re.Seq [Re.Lit "http"; Re.Opt (Re.Chr "s"); Re.Lit "://";
                      Re.Star (Re.Cls url_char); Re.Lit ".m3u8"; Re.Star (Re.Cls url_char)]) ].

Definition video_indicators : list string := ["mp4"; "m3u8"; "video"].
Definition preview_indicators : list string := ["preview"; "trailer"; "sample"; "promo"].
Definition master_indicators : list string :=
  ["/multi="; "/_tpl_"; "/master.m3u8"; "master="].

(** The JSON unescaping of method 1. *)
Definition unescape (s : string) : string :=
  replace (replace (replace s "\/" "/") "\\" "") "\" "".

(** [for x in v] on a decoded JSON value: the items of a list, the keys of
    a dictionary, the characters of a string; other values do not iterate. *)
Definition py_iter (v : pyval) : res (list pyval) :=
  match v with
  | PList l => Ret l
  | PDict kv => Ret (map (fun p => PStr (fst p)) kv)
  | PStr s => Ret (map (fun c => PStr (String c "")) (list_ascii_of_string s))
  | _ => Raise TypeError
  end.

(** [d.get(k)] with [None] for a missing key. *)
Definition get_or_none (k : string) (kv : list (string * pyval)) : pyval :=
  default PNone (dict_get k kv).

(** The final de-duplication of [_parse_html_for_sources]. *)
Definition dedup_step (st : gset string * list source) (s : source)
    : gset string * list source :=
  let '(seen_urls, unique_sources) := st in
  if bool_decide (url s ∈ seen_urls) then (seen_urls, unique_sources)
  else ({[url s]} ∪ seen_urls, unique_sources ++ [s]).

Definition dedup (sources : list source) : list source :=
  snd (fold_left dedup_step sources (∅, [])).

(** [u not in [s["url"] for s in sources]] *)
Definition known (sources : list source) (u : string) : bool :=
  existsb (fun s => String.eqb (url s) u) sources.

(** The page URL of a video: the host path, a slug and, after a hyphen,
    the digits of the identifier; both parts are captured. *)
Definition video_id_pattern : Re.re :=
  Re.Seq [Re.Lit "xhamster.com/videos/";
          Re.Grp 1 (Re.Plus (Re.Cls (Re.none_of "/")));
          Re.Chr "-";
          Re.Grp 2 (Re.Plus (Re.Cls Re.is_digit))].

(** [_get_video_id], on the page URL of the resolver. *)
Definition _get_video_id (page_url : string) : string :=
  match Re.search false video_id_pattern page_url with
  | Some g => Re.group 2 g
  | None => ""
  end.

(** The multi parameter, up to the next slash or ampersand. *)
Definition multi_pattern : Re.re :=
  Re.Seq [Re.Lit "multi="; Re.Grp 1 (Re.Plus (Re.Cls (Re.none_of "/&")))].

(** One entry of the parameter: WIDTHxHEIGHT, a colon and the quality. *)
Definition quality_pattern : Re.re :=
  let digits := Re.Plus (Re.Cls Re.is_digit) in
  Re.Seq [Re.Grp 1 (Re.Seq [digits; Re.Chr "x"; digits]);
          Re.Chr ":";
          Re.Grp 2 (Re.Seq [digits; Re.Chr "p"])].

(** [_parse_qualities_from_url_params]. *)
Definition _parse_qualities_from_url_params (u : string) : list string :=
  match Re.search false multi_pattern u with
  | Some g =>
      let multi_string := Re.group 1 g in
      let qualities := map (Re.group 2) (Re.findall false quality_pattern multi_string) in
      match qualities with
      | [] => []
      | _ => qualities
      end
  | None => []
  end.

Section Resolver.

Variable extract_metadata_from_url : string -> metadata.
Variable json_loads : string -> res pyval.
Variable select_best_source : list source -> string -> bool -> bool -> option source.
Variable determine_recorder_id : string -> string.
Variable fetch_with_fallback : string -> string -> fetched.
Variable _is_template_url : string -> bool.
Variable _resolve_template_url : string -> string -> option string.

(** Method 1, one url/label pair. *)
Definition method1_candidate (video_url quality_label : string) : list source :=
  let clean_url := unescape video_url in
  if String.eqb clean_url "" || negb (any_in video_indicators (lower clean_url))
  then []
  else if str_in "thumb" (lower clean_url) then []
  else if any_in preview_indicators (lower clean_url) then []
  else
    let metadata := extract_metadata_from_url clean_url in
    let labelled :=
      negb (String.eqb quality_label "") && negb (String.eqb quality_label "adaptive") in
    let metadata :=
      if String.eqb (md_format metadata) "m3u8" then
        if any_in master_indicators (lower clean_url)
        then set_quality metadata (PStr "adaptive")
        else if labelled then set_quality metadata (PStr quality_label)
        else metadata
      else if labelled then set_quality metadata (PStr quality_label)
      else metadata in
    [mk_source clean_url metadata].

Definition method1 (html : string) : list source :=
  flat_map (fun g => method1_candidate (Re.group 1 g) (Re.group 2 g))
           (Re.findall true json_pattern html).

(** Method 2, one entry of the source list: the list of sources after it
    and whether the entry raised. *)
Definition method2_source (sources : list source) (entry : pyval)
    : list source * res unit :=
  match entry with
  | PDict kv =>
      match dict_get "url" kv with
      | None => (sources, Ret tt)
      | Some (PStr raw) =>
          let u := replace raw "\/" "/" in
          let metadata := extract_metadata_from_url u in
          let quality_from_json := py_or (get_or_none "quality" kv) (get_or_none "label" kv) in
          let metadata :=
            if String.eqb (md_format metadata) "m3u8" then
              if any_in master_indicators (lower u)
              then set_quality metadata (PStr "adaptive")
              else if truthy quality_from_json then set_quality metadata quality_from_json
              else metadata
            else if truthy quality_from_json then set_quality metadata quality_from_json
            else metadata in
          (sources ++ [mk_source u metadata], Ret tt)
      | Some _ => (sources, Raise AttributeError)
      end
  | _ => (sources, Ret tt)
  end.

Fixpoint method2_entries (sources : list source) (entries : list pyval)
    : list source * res unit :=
  match entries with
  | [] => (sources, Ret tt)
  | e :: rest =>
      match method2_source sources e with
      | (sources', Ret _) => method2_entries sources' rest
      | (sources', Raise x) => (sources', Raise x)
      end
  end.

(** [json.loads], retried on the repaired text after a [JSONDecodeError]. *)
Definition load_player_data (player_data_str : string) : res pyval :=
  try_except (json_loads player_data_str) is_JSONDecodeError
    (fun _ => json_loads (fix_json player_data_str)).

(** Both formats: a list, or an object with a sources key. *)
Definition source_list_of (player_data : pyval) : res pyval :=
  match player_data with
  | PList _ => Ret player_data
  | PDict kv => Ret (default (PList []) (dict_get "sources" kv))
  | _ => Raise AttributeError
  end.

(** The body of the [try] for one matching pattern: the sources after it
    and how it ended. [Ret true] is the [break] of line 258, which stands
    inside [if source_list:] and is reached once the loop over a truthy
    source list has completed; [Ret false] is the end of the body with a
    falsy source list, where nothing is appended and no [break] runs. *)
Definition player_init (sources : list source) (player_data_str : string)
    : list source * res bool :=
  match bind (load_player_data player_data_str) source_list_of with
  | Raise x => (sources, Raise x)
  | Ret source_list =>
      if truthy source_list then
        match py_iter source_list with
        | Raise x => (sources, Raise x)
        | Ret entries =>
            match method2_entries sources entries with
            | (sources', Ret _) => (sources', Ret true)
            | (sources', Raise x) => (sources', Raise x)
            end
        end
      else (sources, Ret false)
  end.

(** The loop over the patterns. A pattern that does not match is skipped.
    For one that matches, the [break] ends the loop; a body that ends
    without it (falsy source list) and a [JSONDecodeError] or
    [AttributeError] (the handler's [continue]) both move on to the next
    pattern, keeping what was appended; other exceptions propagate. *)
Fixpoint method2 (patterns : list Re.re) (html : string) (sources : list source)
    : res (list source) :=
  match patterns with
  | [] => Ret sources
  | pattern :: rest =>
      match Re.search false pattern html with
      | None => method2 rest html sources
      | Some g =>
          match player_init sources (Re.group 1 g) with
          | (sources', Ret true) => Ret sources'
          | (sources', Ret false) => method2 rest html sources'
          | (sources', Raise x) =>
              if is_JSONDecodeError x || is_AttributeError x
              then method2 rest html sources'
              else Raise x
          end
      end
  end.

(** Method 3, one matched URL. *)
Definition method3_step (sources : list source) (mp4_url : string) : list source :=
  if negb (String.eqb mp4_url "") && negb (known sources mp4_url) then
    if endswith (lower mp4_url) ".m3u8" then sources
    else if str_in "thumb" (lower mp4_url) then sources
    else if any_in preview_indicators (lower mp4_url) then sources
    else sources ++ [mk_source mp4_url (or_default (extract_metadata_from_url mp4_url) "480p")]
  else sources.

Definition method3 (html : string) (sources : list source) : list source :=
  fold_left method3_step (map (Re.group 1) (Re.findall true mp4_pattern html)) sources.

(** Method 4, one matched URL. *)
Definition method4_step (sources : list source) (hls_url : string) : list source :=
  if negb (String.eqb hls_url "") && negb (known sources hls_url) then
    if str_in "thumb" (lower hls_url) then sources
    else if any_in preview_indicators (lower hls_url) then sources
    else sources ++ [mk_source hls_url (or_default (extract_metadata_from_url hls_url) "adaptive")]
  else sources.

Definition method4 (html : string) (sources : list source) : list source :=
  fold_left method4_step
    (flat_map (fun pattern => map (Re.group 1) (Re.findall true pattern html)) hls_patterns)
    sources.

(** All four methods, in order. *)
Definition collect (html : string) : res (list source) :=
  bind (method2 player_patterns html (method1 html)) (fun sources =>
    Ret (method4 html (method3 html sources))).

(** [_parse_html_for_sources]: a list, or [None]. *)
Definition _parse_html_for_sources (html : string) : res (option (list source)) :=
  if String.eqb html "" then Ret (Some [])
  else
    bind (collect html) (fun sources =>
      match sources with
      | [] => Ret None
      | _ => Ret (Some (dedup sources))
      end).

(** The session after the CDN headers are set on it. *)
Definition with_cdn_headers (sess : option headers) : option headers :=
  match sess with
  | Some h => Some (<["Origin" := "https://xhamster.com"]>
                      (<["Referer" := "https://xhamster.com/"]> h))
  | None => None
  end.

(** The template step applied to the selected URL. *)
Definition template_step (resolved_url quality : string) : string :=
  if _is_template_url resolved_url then
    match _resolve_template_url resolved_url quality with
    | Some t => if negb (String.eqb t "") && negb (String.eqb t resolved_url)
                then t else resolved_url
    | None => resolved_url
    end
  else resolved_url.

(** [resolve_url]: no handler surrounds the body. *)
Definition resolve_url (self : resolver) : res (option (gmap string rval)) :=
  let f := fetch_with_fallback (self_url self) "https://xhamster.com" in
  if no_text (page f) then Ret None
  else
    let html := default "" (page f) in
    bind (_parse_html_for_sources html) (fun parsed =>
      match parsed with
      | None | Some [] => Ret None
      | Some sources =>
          let best_source :=
            select_best_source sources (self_quality self) true (self_av1 self) in
          let resolved_url :=
            match best_source with
            | Some b => url b
            | None => self_url self
            end in
          let resolved_url := template_step resolved_url (self_quality self) in
          let recorder_id := determine_recorder_id resolved_url in
          Ret (Some (update_result (self_resolve_result self) resolved_url
                       (with_cdn_headers (session f)) (ffmpeg_headers f) recorder_id))
      end).

End Resolver.

End XHamster.

(** * Specification-side definitions and scenario inputs *)

(** Occurrence of one character. *)
Fixpoint has_char (a : ascii) (s : string) : bool :=
  match s with
  | EmptyString => false
  | String c s' => Ascii.eqb a c || has_char a s'
  end.

(** ** First occurrences

    The filter of XNXX as a specification: among the candidates whose URL
    starts with the text http and whose lower-cased URL contains a media
    indicator, the first occurrence of each URL, in the original order. *)

Definition is_media_candidate (u : string) : bool :=
  startswith u "http" && any_in XNXX.media_indicators (lower u).

Fixpoint first_occurrences (seen : list string) (l : list source) : list source :=
  match l with
  | [] => []
  | s :: rest =>
      if existsb (String.eqb (url s)) seen
      then first_occurrences seen rest
      else s :: first_occurrences (url s :: seen) rest
  end.

Definition spec_filter (candidates : list source) : list source :=
  first_occurrences [] (List.filter (fun s => is_media_candidate (url s)) candidates).

(** The same filter in the words of the claim: a URL qualifies when it
    starts with an absolute scheme (a letter, then letters, digits, plus,
    minus or dot, and :// after them) and contains one of the media
    indicators as they are written. *)
Definition is_letter (c : ascii) : bool :=
  let n := nat_of_ascii c in
  (((65 <=? n) && (n <=? 90)) || ((97 <=? n) && (n <=? 122)))%nat.

Definition scheme_pattern : Re.re :=
  Re.Seq [Re.Cls is_letter;
          Re.Star (Re.Cls (fun c => is_letter c || Re.is_digit c || Re.one_of "+-." c));
          Re.Lit "://"].

Definition starts_with_scheme (u : string) : bool :=
  match Re.match_here false scheme_pattern u with
  | Some _ => true
  | None => false
  end.

Definition claimed_media_candidate (u : string) : bool :=
  starts_with_scheme u && any_in XNXX.media_indicators u.

Definition claimed_filter (candidates : list source) : list source :=
  first_occurrences []
    (List.filter (fun s => claimed_media_candidate (url s)) candidates).

(** A set of seen URLs and a list of them that agree on membership. *)
Definition same_urls (seenS : gset string) (seenL : list string) : Prop :=
  forall u, u ∈ seenS <-> existsb (String.eqb u) seenL = true.

(** No thumbnail or preview marker occurs in the URL, whatever the case
    of its letters. *)
Definition marker_free (u : string) : Prop :=
  str_in "thumb" (lower u) = false /\
  any_in XHamster.preview_indicators (lower u) = false.

(** No player-initialisation pattern of xHamster matches the page. *)
Definition no_player_match (html : string) : bool :=
  forallb (fun pattern =>
             match Re.search false pattern html with
             | None => true
             | Some _ => false
             end) XHamster.player_patterns.

(** ** Scenario pages *)

(** Both setters of this page carry the same URL. *)
Definition same_url_page : string :=
  "html5player.setVideoUrlLow('https://cdn/v.mp4');html5player.setVideoUrlHigh('https://cdn/v.mp4');".

(** A preview HLS URL followed by an ordinary one. *)
Definition preview_hls_page : string :=
  "https://cdn/preview.m3u8 https://cdn/a.m3u8".

(** A page that consists of one template HLS URL. *)
Definition template_hls_page : string :=
  "https://cdn.example/multi=256x144:144p/_TPL_.m3u8".

(** A player initialisation whose sources key holds a number. *)
Definition number_sources_data : string :=
  "{" +:+ String double_quote "sources" +:+ String double_quote ": 5}".

(** The page that hands this object to the player. *)
Definition number_sources_page : string :=
  "window.initPlayer(" +:+ number_sources_data +:+ ")".

(** A protocol-relative low URL and a JSON-escaped high URL. *)
Definition raw_urls_page : string :=
  "html5player.setVideoUrlLow('//cdn/low.mp4');html5player.setVideoUrlHigh('https:\/\/cdn\/high.mp4');".

(** Scenario D: the High setter with a URL that has no resolution token. *)
Definition high_setter_page : string :=
  "html5player.setVideoUrlHigh('https://cdn/v720.mp4')".

(** ** Collaborators of the scenarios *)

(** A decoder that rejects every text, for pages without any JSON block. *)
Definition no_json (text : string) : res pyval := Raise JSONDecodeError.

(** A decoder that knows the player data of [number_sources_page]: an
    object whose sources key holds the integer 5. *)
Definition decode_number_sources (text : string) : res pyval :=
  if String.eqb text number_sources_data
  then Ret (PDict [("sources", PInt 5)])
  else Raise JSONDecodeError.

(** A fetch that succeeds with the given page text and no session. *)
Definition fetch_page (html : string) (page_url referer : string) : fetched :=
  Fetched (Some html) None "direct" ∅.

(** A ranker that returns no winner. *)
Definition no_winner (sources : list source) (requested : string)
    (codec_aware av1 : bool) : option source := None.

(** Modelled from the spec: [base_resolver.determine_recorder_id] is not
    among the sources. A URL with an unsubstituted template placeholder is
    templated, another URL containing .m3u8 is segmented, any other URL is
    progressive. *)
Definition recorder_kind (u : string) : string :=
  if str_in "_TPL_" u then "templated"
  else if str_in ".m3u8" u then "segmented"
  else "progressive".

(** Modelled from the spec: [base_resolver._is_template_url] and
    [base_resolver._resolve_template_url] are not among the sources. A URL
    is a template when it contains the placeholder; resolving it puts the
    requested quality in the place of the placeholder. *)
Definition placeholder_is_template (u : string) : bool := str_in "_TPL_" u.

Definition placeholder_resolve (u requested : string) : option string :=
  Some (replace u "_TPL_" requested).

(** A resolver for an ordinary page URL, and one whose page URL contains
    the template placeholder. *)
Definition video_page_resolver : resolver :=
  Resolver "https://xhamster.com/videos/a-1" "720p" false ∅.

Definition template_page_resolver : resolver :=
  Resolver "https://xhamster.com/videos/_TPL_-1" "720p" false ∅.

(** ** The language of a pattern and the groups it captures *)

Module ReSpec.

Import Re.

(** The texts a pattern matches. *)
Inductive lang (ic : bool) : re -> string -> Prop :=
| lang_Eps : lang ic Eps ""
| lang_Chr c d : chr_eq ic c d = true -> lang ic (Chr c) (String d "")
| lang_Cls p d : p d = true -> lang ic (Cls p) (String d "")
| lang_Cat r1 r2 w1 w2 :
    lang ic r1 w1 -> lang ic r2 w2 -> lang ic (Cat r1 r2) (w1 +:+ w2)
| lang_Opt_skip r : lang ic (Opt r) ""
| lang_Opt_take r w : lang ic r w -> lang ic (Opt r) w
| lang_Star_stop r : lang ic (Star r) ""
| lang_Star_more r w1 w2 :
    lang ic r w1 -> lang ic (Star r) w2 -> lang ic (Star r) (w1 +:+ w2)
| lang_LazyStar_stop r : lang ic (LazyStar r) ""
| lang_LazyStar_more r w1 w2 :
    lang ic r w1 -> lang ic (LazyStar r) w2 -> lang ic (LazyStar r) (w1 +:+ w2)
| lang_Grp i r w : lang ic r w -> lang ic (Grp i r) w.

(** The numbered groups of a pattern, with their own patterns. *)
Fixpoint groups_of (r : re) : list (nat * re) :=
  match r with
  | Eps | Chr _ | Cls _ => []
  | Cat r1 r2 => groups_of r1 ++ groups_of r2
  | Opt r1 | Star r1 | LazyStar r1 => groups_of r1
  | Grp i r1 => (i, r1) :: groups_of r1
  end.

(** The groups every match goes through: those outside any optional or
    repeated part. *)
Fixpoint must_groups (r : re) : list nat :=
  match r with
  | Eps | Chr _ | Cls _ | Opt _ | Star _ | LazyStar _ => []
  | Cat r1 r2 => must_groups r1 ++ must_groups r2
  | Grp i r1 => i :: must_groups r1
  end.

(** The captures [g'] after a match of [r] that started with [g]: the old
    ones are kept, a new one holds a text of its group's pattern, and each
    group the match goes through has one. *)
Definition captured (ic : bool) (r : re) (g g' : caps) : Prop :=
  (forall e, In e g -> In e g') /\
  (forall i v, In (i, v) g' ->
     In (i, v) g \/ exists r1, In (i, r1) (groups_of r) /\ lang ic r1 v) /\
  (forall i, In i (must_groups r) -> exists v, In (i, v) g').

(** Every character of a text satisfies a test. *)
Fixpoint all_chars (p : ascii -> bool) (s : string) : bool :=
  match s with
  | EmptyString => true
  | String c s' => p c && all_chars p s'
  end.

End ReSpec.

(** What [search] and [findall] return: the captures of a match of the
    pattern somewhere in the text. *)
Definition match_in (ic : bool) (r : Re.re) (s : string) (g : Re.caps) : Prop :=
  exists pre w post,
    s = pre +:+ w +:+ post /\ ReSpec.lang ic r w /\ ReSpec.captured ic r [] g.

(** A text without one character. *)
Fixpoint without_char (a : ascii) (s : string) : string :=
  match s with
  | EmptyString => EmptyString
  | String c s' => if Ascii.eqb a c then without_char a s' else String c (without_char a s')
  end.

(** A scan step appends at most one candidate, never one with a URL that
    is already collected. *)
Definition appends_fresh (step : list source -> string -> list source) : Prop :=
  forall sources u,
    step sources u = sources \/
    exists c, step sources u = sources ++ [c] /\ ~ In (url c) (map url sources).

(** The keys [resolve_url] writes into [resolve_result]. *)
Definition result_keys : list string :=
  ["resolved_url"; "session"; "ffmpeg_headers"; "recorder_id"].

(** The URL a resolver settles on, given what the ranker returned. *)
Definition chosen_url (self : resolver) (best : option source) : string :=
  match best with
  | Some b => url b
  | None => self_url self
  end.


(** A ranker that returns the first candidate. *)
Definition first_candidate (sources : list source) (requested : string)
    (codec_aware av1 : bool) : option source := head sources.

(** A resolver whose result dictionary already holds a title. *)
Definition titled_resolver (page_url : string) : resolver :=
  Resolver page_url "720p" false {["title" := RStr "a title"]}.

(** A fetch that succeeds with the given page text and a session that
    carries one header. *)
Definition fetch_with_session (html : string) (page_url referer : string) : fetched :=
  Fetched (Some html) (Some {["User-Agent" := "agent"]}) "direct" ∅.

(** A decoder that returns the integer 5 for every text. *)
Definition decode_five (text : string) : res pyval := Ret (PInt 5).

(** A page with a High setter and a JSON-LD block. *)
Definition setter_and_json_ld_page : string :=
  "html5player.setVideoUrlHigh('https://cdn/v720.mp4')<script type=" +:+
  String double_quote "application/ld+json" +:+ String double_quote ">5</script>".

(** A page whose player call is given an object without sources, followed
    by a bare sources list with one entry, and a decoder that knows the
    two texts. *)
Definition empty_player_data : string := "{ }".

Definition listed_source_data : string :=
  "[{" +:+ String double_quote "url" +:+ String double_quote ": " +:+
  String double_quote "https://cdn/a.mp4" +:+ String double_quote "}]".

Definition empty_player_page : string :=
  "initPlayer(" +:+ empty_player_data +:+ ") sources: " +:+ listed_source_data.

Definition decode_player_lists (text : string) : res pyval :=
  if String.eqb text empty_player_data then Ret (PDict [])
  else if String.eqb text listed_source_data
  then Ret (PList [PDict [("url", PStr "https://cdn/a.mp4")]])
  else Raise JSONDecodeError.

(** ASCII text: every character is below 128. *)
Definition ascii_text (s : string) : bool :=
  ReSpec.all_chars (fun c => (nat_of_ascii c <? 128)%nat) s.

(** * Properties *)

(** ** Strings *)

Section StringFacts.

Lemma prefix_cons_false a old c s :
  a <> c -> String.prefix (String a old) (String c s) = false.
Proof.
  intros Hne. simpl. destruct (ascii_dec a c); [contradiction | reflexivity].
Qed.

Lemma prefix_single a c s :
  String.prefix (String a "") (String c s) = Ascii.eqb a c.
Proof.
  simpl. destruct (ascii_dec a c) as [->|Hne].
  - rewrite Ascii.eqb_refl. now destruct s.
  - symmetry. now apply Ascii.eqb_neq.
Qed.

(** Replacing a text whose first character does not occur changes nothing. *)
Lemma replace_absent a old new s :
  has_char a s = false -> replace s (String a old) new = s.
Proof.
  unfold replace. induction s as [|c s IH]; intros H; [reflexivity|].
  simpl in H. apply orb_false_iff in H as [Hc Hs].
  apply Ascii.eqb_neq in Hc.
  cbn [replace_from]. rewrite (prefix_cons_false _ _ _ _ Hc).
  now rewrite IH.
Qed.

(** Deleting a character leaves no occurrence of it. *)
Lemma delete_char_absent a skip s :
  has_char a (replace_from (String a "") "" skip s) = false.
Proof.
  revert skip. induction s as [|c s IH]; intros skip; [reflexivity|].
  cbn [replace_from]. destruct skip as [|k]; [|apply IH].
  rewrite prefix_single. destruct (Ascii.eqb a c) eqn:E.
  - cbn. apply IH.
  - cbn. rewrite E. apply IH.
Qed.

Lemma has_char_app a s t : has_char a (s +:+ t) = has_char a s || has_char a t.
Proof.
  induction s as [|c s IH]; simpl; [reflexivity|].
  now rewrite IH, orb_assoc.
Qed.

End StringFacts.

(** ** The unescape transforms and the upgrade *)

Lemma xnxx_unescape_no_backslash s : has_char "\" (XNXX.unescape s) = false.
Proof. apply delete_char_absent. Qed.

Lemma xhamster_unescape_no_backslash s : has_char "\" (XHamster.unescape s) = false.
Proof. apply delete_char_absent. Qed.

Lemma upgrade_no_backslash s :
  has_char "\" s = false -> has_char "\" (XNXX.upgrade s) = false.
Proof.
  intros H. unfold XNXX.upgrade. destruct (startswith s "//"); [|exact H].
  rewrite has_char_app, H. reflexivity.
Qed.

Lemma upgrade_not_relative s : startswith (XNXX.upgrade s) "//" = false.
Proof.
  unfold XNXX.upgrade. destruct (startswith s "//") eqn:E; [reflexivity | exact E].
Qed.

(** ** First occurrences and the two de-duplication loops *)

Section FirstOccurrences.

Lemma same_urls_empty : same_urls ∅ [].
Proof. intros u. simpl. split; [set_solver | discriminate]. Qed.

Lemma same_urls_add seenS seenL v :
  same_urls seenS seenL -> same_urls ({[v]} ∪ seenS) (v :: seenL).
Proof.
  intros H u. simpl. rewrite elem_of_union, elem_of_singleton, orb_true_iff, (H u).
  rewrite String.eqb_eq. tauto.
Qed.

Lemma same_urls_decide seenS seenL u :
  same_urls seenS seenL ->
  bool_decide (u ∈ seenS) = existsb (String.eqb u) seenL.
Proof.
  intros H. destruct (existsb (String.eqb u) seenL) eqn:E.
  - apply bool_decide_eq_true. now apply H.
  - apply bool_decide_eq_false. intros Hin. apply H in Hin. congruence.
Qed.

(** The loop of XNXX computes the first occurrences of the media
    candidates. *)
Lemma xnxx_fold l : forall acc seenS seenL,
  same_urls seenS seenL ->
  fst (fold_left XNXX.filter_step l (acc, seenS)) =
  acc ++ first_occurrences seenL (List.filter (fun s => is_media_candidate (url s)) l).
Proof.
  induction l as [|a l IH]; intros acc seenS seenL Hs; simpl.
  - now rewrite app_nil_r.
  - unfold XNXX.keeps. rewrite (same_urls_decide _ _ _ Hs), <- andb_assoc.
    fold (is_media_candidate (url a)).
    destruct (is_media_candidate (url a)) eqn:Hm; simpl.
    + destruct (existsb (String.eqb (url a)) seenL) eqn:Hseen; simpl.
      * now apply IH.
      * rewrite (IH _ _ (url a :: seenL)) by now apply same_urls_add.
        now rewrite <- app_assoc.
    + rewrite andb_false_r. now apply IH.
Qed.

(** The final loop of xHamster computes the first occurrences. *)
Lemma xhamster_fold l : forall acc seenS seenL,
  same_urls seenS seenL ->
  snd (fold_left XHamster.dedup_step l (seenS, acc)) = acc ++ first_occurrences seenL l.
Proof.
  induction l as [|a l IH]; intros acc seenS seenL Hs; simpl.
  - now rewrite app_nil_r.
  - rewrite (same_urls_decide _ _ _ Hs).
    destruct (existsb (String.eqb (url a)) seenL) eqn:Hseen.
    + now apply IH.
    + rewrite (IH _ _ (url a :: seenL)) by now apply same_urls_add.
      now rewrite <- app_assoc.
Qed.

Lemma xhamster_dedup_spec l : XHamster.dedup l = first_occurrences [] l.
Proof. unfold XHamster.dedup. now rewrite (xhamster_fold l [] ∅ [] same_urls_empty). Qed.

Lemma first_occurrences_fresh l : forall seen c,
  In c (first_occurrences seen l) -> existsb (String.eqb (url c)) seen = false.
Proof.
  induction l as [|a l IH]; intros seen c Hin; simpl in Hin; [contradiction|].
  destruct (existsb (String.eqb (url a)) seen) eqn:Hseen.
  - now apply IH.
  - destruct Hin as [<-|Hin]; [assumption|].
    apply IH in Hin. simpl in Hin. now apply orb_false_iff in Hin as [_ ?].
Qed.

Lemma first_occurrences_NoDup l : forall seen,
  NoDup (map url (first_occurrences seen l)).
Proof.
  induction l as [|a l IH]; intros seen; simpl; [constructor|].
  destruct (existsb (String.eqb (url a)) seen); [apply IH|].
  simpl. constructor; [|apply IH].
  rewrite list_elem_of_In, in_map_iff. intros (c & Hc & Hin).
  apply first_occurrences_fresh in Hin. simpl in Hin.
  apply orb_false_iff in Hin as [Hne _].
  rewrite Hc, String.eqb_refl in Hne. discriminate.
Qed.

Lemma first_occurrences_incl l : forall seen c,
  In c (first_occurrences seen l) -> In c l.
Proof.
  induction l as [|a l IH]; intros seen c Hin; simpl in Hin; [contradiction|].
  destruct (existsb (String.eqb (url a)) seen).
  - right. eauto.
  - destruct Hin as [<-|Hin]; [now left | right; eauto].
Qed.

Lemma first_occurrences_nonempty a l : first_occurrences [] (a :: l) <> [].
Proof. simpl. discriminate. Qed.

(** The first occurrences form a sublist: the original order is kept. *)
Lemma first_occurrences_sublist l : forall seen,
  sublist (first_occurrences seen l) l.
Proof.
  induction l as [|a l IH]; intros seen; simpl; [constructor|].
  destruct (existsb (String.eqb (url a)) seen).
  - apply sublist_cons, IH.
  - apply sublist_skip, IH.
Qed.

Lemma filter_sublist {A : Type} (P : A -> bool) (l : list A) :
  sublist (List.filter P l) l.
Proof.
  induction l as [|a l IH]; simpl; [constructor|].
  destruct (P a); [now apply sublist_skip | now apply sublist_cons].
Qed.

(** A candidate is among the first occurrences exactly when the list
    splits at it with no equal URL before it. *)
Lemma first_occurrences_In l : forall seen c,
  In c (first_occurrences seen l) <->
  exists l1 l2, l = l1 ++ c :: l2 /\
                existsb (String.eqb (url c)) seen = false /\
                forall d, In d l1 -> url d <> url c.
Proof.
  induction l as [|a l IH]; intros seen c; simpl.
  - split; [intros [] | intros ([|? ?] & ? & ? & _); discriminate].
  - destruct (existsb (String.eqb (url a)) seen) eqn:Hseen.
    + rewrite IH. split.
      * intros (l1 & l2 & -> & Hc & Hl1). exists (a :: l1), l2.
        split; [reflexivity|]. split; [exact Hc|].
        intros d [<-|Hd]; [|now apply Hl1].
        intros Heq. rewrite Heq in Hseen. congruence.
      * intros ([|b l1] & l2 & Heq & Hc & Hl1); simpl in Heq;
          injection Heq as -> ->; [congruence|].
        exists l1, l2. split; [reflexivity|]. split; [exact Hc|].
        intros d Hd. apply Hl1. now right.
    + simpl. rewrite IH. split.
      * intros [<-|(l1 & l2 & -> & Hc & Hl1)].
        { exists [], l. split; [reflexivity|]. split; [exact Hseen|]. intros d []. }
        simpl in Hc. apply orb_false_iff in Hc as [Hne Hc].
        apply String.eqb_neq in Hne.
        exists (a :: l1), l2. split; [reflexivity|]. split; [exact Hc|].
        intros d [<-|Hd]; [congruence | now apply Hl1].
      * intros ([|b l1] & l2 & Heq & Hc & Hl1); simpl in Heq;
          injection Heq as -> ->; [now left | right].
        exists l1, l2. split; [reflexivity|]. split.
        { simpl. rewrite Hc, orb_false_r. apply String.eqb_neq.
          intros Heq. apply (Hl1 b); [now left | now symmetry]. }
        intros d Hd. apply Hl1. now right.
Qed.

(** A split of a filtered list comes from a split of the list. *)
Lemma filter_split {A : Type} (P : A -> bool) (l : list A) : forall f1 c f2,
  List.filter P l = f1 ++ c :: f2 ->
  exists l1 l2, l = l1 ++ c :: l2 /\ List.filter P l1 = f1 /\ P c = true.
Proof.
  induction l as [|a l IH]; intros f1 c f2; simpl.
  - intros H. destruct f1; discriminate.
  - destruct (P a) eqn:Ha.
    + destruct f1 as [|b f1]; simpl; intros H; injection H as -> H.
      * exists [], l. split; [reflexivity|]. split; [reflexivity | exact Ha].
      * apply IH in H as (l1 & l2 & -> & <- & Hc).
        exists (b :: l1), l2. split; [reflexivity|]. split; [|exact Hc].
        simpl. now rewrite Ha.
    + intros H. apply IH in H as (l1 & l2 & -> & <- & Hc).
      exists (a :: l1), l2. split; [reflexivity|]. split; [|exact Hc].
      simpl. now rewrite Ha.
Qed.

(** The candidates kept by the filter in the spec's words: the media
    candidates that no candidate with the same URL precedes. *)
Lemma spec_filter_In candidates c :
  In c (spec_filter candidates) <->
  exists l1 l2, candidates = l1 ++ c :: l2 /\
                is_media_candidate (url c) = true /\
                forall d, In d l1 -> url d <> url c.
Proof.
  unfold spec_filter. rewrite first_occurrences_In. split.
  - intros (f1 & f2 & Hf & _ & Hf1).
    apply filter_split in Hf as (l1 & l2 & -> & <- & Hc).
    exists l1, l2. split; [reflexivity|]. split; [exact Hc|].
    intros d Hd Heq. apply (Hf1 d); [|exact Heq].
    apply filter_In. split; [exact Hd|]. now rewrite Heq.
  - intros (l1 & l2 & -> & Hc & Hl1).
    exists (List.filter (fun s => is_media_candidate (url s)) l1),
           (List.filter (fun s => is_media_candidate (url s)) l2).
    split.
    + rewrite List.filter_app. simpl. now rewrite Hc.
    + split; [reflexivity|]. intros d Hd. apply filter_In in Hd as [Hd _].
      now apply Hl1.
Qed.

Lemma dedup_nonempty a l : XHamster.dedup (a :: l) <> [].
Proof. rewrite xhamster_dedup_spec. apply first_occurrences_nonempty. Qed.

End FirstOccurrences.

(** ** The strategies of xHamster *)

Section Exclusion.

Variable extract_metadata_from_url : string -> metadata.

Lemma method1_candidate_marker_free video_url quality_label c :
  In c (XHamster.method1_candidate extract_metadata_from_url video_url quality_label) ->
  marker_free (url c).
Proof.
  unfold XHamster.method1_candidate.
  set (u := XHamster.unescape video_url).
  destruct (_ || _); [intros []|].
  destruct (str_in "thumb" (lower u)) eqn:Ht; [intros []|].
  destruct (any_in XHamster.preview_indicators (lower u)) eqn:Hp; [intros []|].
  intros [<-|[]]. now split.
Qed.

Lemma method3_step_marker_free sources mp4_url c :
  In c (XHamster.method3_step extract_metadata_from_url sources mp4_url) ->
  In c sources \/ marker_free (url c).
Proof.
  unfold XHamster.method3_step.
  destruct (_ && _); [|now left].
  destruct (endswith _ _); [now left|].
  destruct (str_in "thumb" (lower mp4_url)) eqn:Ht; [now left|].
  destruct (any_in XHamster.preview_indicators (lower mp4_url)) eqn:Hp; [now left|].
  rewrite in_app_iff. intros [H|[<-|[]]]; [now left | right; now split].
Qed.

Lemma method4_step_marker_free sources hls_url c :
  In c (XHamster.method4_step extract_metadata_from_url sources hls_url) ->
  In c sources \/ marker_free (url c).
Proof.
  unfold XHamster.method4_step.
  destruct (_ && _); [|now left].
  destruct (str_in "thumb" (lower hls_url)) eqn:Ht; [now left|].
  destruct (any_in XHamster.preview_indicators (lower hls_url)) eqn:Hp; [now left|].
  rewrite in_app_iff. intros [H|[<-|[]]]; [now left | right; now split].
Qed.

(** A loop whose steps only append marker-free candidates. *)
Lemma fold_marker_free (step : list source -> string -> list source) :
  (forall sources u c, In c (step sources u) -> In c sources \/ marker_free (url c)) ->
  forall matches sources c,
    In c (fold_left step matches sources) -> In c sources \/ marker_free (url c).
Proof.
  intros Hstep matches. induction matches as [|u matches IH]; intros sources c; simpl.
  - now left.
  - intros H. apply IH in H as [H|H]; [|now right]. now apply Hstep in H.
Qed.

(** Method 2 adds nothing when none of its patterns matches. *)
Lemma method2_no_match json_loads html sources : forall patterns,
  (forall pattern, In pattern patterns -> Re.search false pattern html = None) ->
  XHamster.method2 extract_metadata_from_url json_loads patterns html sources
    = Ret sources.
Proof.
  induction patterns as [|p ps IH]; intros H; simpl; [reflexivity|].
  rewrite (H p) by now left. apply IH. intros q Hq. apply H. now right.
Qed.

End Exclusion.

Lemma no_player_match_spec html :
  no_player_match html = true ->
  forall pattern, In pattern XHamster.player_patterns ->
                  Re.search false pattern html = None.
Proof.
  unfold no_player_match. rewrite forallb_forall. intros H pattern Hin.
  specialize (H pattern Hin). now destruct (Re.search false pattern html).
Qed.

(** Methods 1 and 2 do mark such a URL adaptive, whatever label comes
    with it. *)
Lemma method1_master_is_adaptive
    (extract_metadata_from_url : string -> metadata) (video_url quality_label : string)
    (c : source) :
  In c (XHamster.method1_candidate extract_metadata_from_url video_url quality_label) ->
  format c = "m3u8" ->
  any_in XHamster.master_indicators (lower (url c)) = true ->
  quality c = PStr "adaptive".
Proof.
  unfold XHamster.method1_candidate.
  set (u := XHamster.unescape video_url).
  destruct (_ || _); [intros []|].
  destruct (str_in "thumb" _); [intros []|].
  destruct (any_in XHamster.preview_indicators _); [intros []|].
  intros [<-|[]]. simpl. intros Hf Hm.
  destruct (String.eqb (md_format (extract_metadata_from_url u)) "m3u8") eqn:Hfmt.
  - now rewrite Hm.
  - destruct (negb _ && negb _); simpl in Hf; apply String.eqb_neq in Hfmt; contradiction.
Qed.

Lemma method2_master_is_adaptive
    (extract_metadata_from_url : string -> metadata) (sources : list source)
    (entry : pyval) (c : source) :
  In c (fst (XHamster.method2_source extract_metadata_from_url sources entry)) ->
  In c sources \/
  (format c = "m3u8" ->
   any_in XHamster.master_indicators (lower (url c)) = true ->
   quality c = PStr "adaptive").
Proof.
  unfold XHamster.method2_source.
  destruct entry as [| | | | |?|kv]; simpl; auto.
  destruct (dict_get "url" kv) as [[| | | |raw| |]|]; simpl; auto.
  set (u := replace raw "\/" "/").
  rewrite in_app_iff. intros [H|[<-|[]]]; [now left | right].
  simpl. intros Hf Hm.
  destruct (String.eqb (md_format (extract_metadata_from_url u)) "m3u8") eqn:Hfmt.
  - now rewrite Hm.
  - destruct (truthy _); simpl in Hf; apply String.eqb_neq in Hfmt; contradiction.
Qed.

(** ** The setter strategies of XVideos *)




(** ** Result assembly and the exception handlers *)

Lemma update_result_resolved_url r u sess h rid :
  update_result r u sess h rid !! "resolved_url" = Some (RStr u).
Proof.
  unfold update_result.
  rewrite !lookup_insert_ne by discriminate.
  apply lookup_insert_eq.
Qed.

(** The handlers of XNXX and XVideos leave no exception to the caller. *)
Lemma xnxx_resolve_url_returns
    (extract_metadata_from_url : string -> metadata)
    (json_loads : string -> res pyval)
    (select_best_source : list source -> string -> bool -> bool -> option source)
    (determine_recorder_id : string -> string)
    (fetch_with_fallback : string -> string -> fetched)
    (ld_json_scripts : string -> list string)
    (video_source_tags : string -> list XNXX.source_tag)
    (urljoin : string -> string -> string) (self : resolver) :
  exists r,
    XNXX.resolve_url extract_metadata_from_url json_loads select_best_source
      determine_recorder_id fetch_with_fallback ld_json_scripts video_source_tags
      urljoin self = Ret r.
Proof.
  unfold XNXX.resolve_url, try_except.
  destruct (XNXX.resolve_body _ _ _ _ _ _ _ _ self); simpl; eauto.
Qed.

Lemma xvideos_resolve_url_returns
    (extract_metadata_from_url : string -> metadata)
    (json_loads : string -> res pyval)
    (select_best_source : list source -> string -> bool -> bool -> option source)
    (determine_recorder_id : string -> string)
    (fetch_with_fallback : string -> string -> fetched) (self : resolver) :
  exists r,
    XVideos.resolve_url extract_metadata_from_url json_loads select_best_source
      determine_recorder_id fetch_with_fallback self = Ret r.
Proof.
  unfold XVideos.resolve_url, try_except.
  destruct (XVideos.resolve_body _ _ _ _ _ self); simpl; eauto.
Qed.

(** Scenario C: an empty page text makes every provider return [None]. *)
Lemma empty_page_resolves_to_none
    (extract_metadata_from_url : string -> metadata)
    (json_loads : string -> res pyval)
    (select_best_source : list source -> string -> bool -> bool -> option source)
    (determine_recorder_id : string -> string)
    (ld_json_scripts : string -> list string)
    (video_source_tags : string -> list XNXX.source_tag)
    (urljoin : string -> string -> string)
    (_is_template_url : string -> bool)
    (_resolve_template_url : string -> string -> option string)
    (self : resolver) :
  XNXX.resolve_url extract_metadata_from_url json_loads select_best_source
    determine_recorder_id (fetch_page "") ld_json_scripts video_source_tags urljoin self
    = Ret None /\
  XVideos.resolve_url extract_metadata_from_url json_loads select_best_source
    determine_recorder_id (fetch_page "") self = Ret None /\
  XHamster.resolve_url extract_metadata_from_url json_loads select_best_source
    determine_recorder_id (fetch_page "") _is_template_url _resolve_template_url self
    = Ret None.
Proof. repeat split. Qed.

(** ** C1: exceptions reaching the caller of [resolve_url] *)

(** C1, at the failing input. When the fetched xHamster page initialises
    the player with an object whose sources key holds the number 5, the
    loop over that number raises [TypeError]; the handler of method 2 only
    names [JSONDecodeError] and [AttributeError] and [resolve_url] has no
    handler, so the exception reaches the caller. *)
Theorem xhamster_resolve_url_raises
    (extract_metadata_from_url : string -> metadata)
    (json_loads : string -> res pyval)
    (select_best_source : list source -> string -> bool -> bool -> option source)
    (determine_recorder_id : string -> string)
    (fetch_with_fallback : string -> string -> fetched)
    (_is_template_url : string -> bool)
    (_resolve_template_url : string -> string -> option string)
    (self : resolver) :
  page (fetch_with_fallback (self_url self) "https://xhamster.com")
    = Some number_sources_page ->
  json_loads number_sources_data = Ret (PDict [("sources", PInt 5)]) ->
  XHamster.resolve_url extract_metadata_from_url json_loads select_best_source
    determine_recorder_id fetch_with_fallback _is_template_url _resolve_template_url self
    = Raise TypeError.
Proof.
  intros Hpage Hjson. unfold XHamster.resolve_url. rewrite Hpage.
  change (no_text (Some number_sources_page)) with false. cbv iota.
  change (default "" (Some number_sources_page)) with number_sources_page.
  assert (Hparse : XHamster._parse_html_for_sources extract_metadata_from_url json_loads
                     number_sources_page = Raise TypeError).
  { unfold XHamster._parse_html_for_sources.
    change (String.eqb number_sources_page "") with false. cbv iota.
    assert (Hc : XHamster.collect extract_metadata_from_url json_loads
                   number_sources_page = Raise TypeError).
    { unfold XHamster.collect.
      change (XHamster.method1 extract_metadata_from_url number_sources_page)
        with (@nil source).
      unfold XHamster.player_patterns, XHamster.method2.
      replace (Re.search false _ number_sources_page)
        with (Some [(1, number_sources_data)]) by (vm_compute; reflexivity).
      unfold XHamster.player_init, XHamster.load_player_data.
      change (Re.group 1 [(1, number_sources_data)]) with number_sources_data.
      rewrite Hjson. reflexivity. }
    now rewrite Hc. }
  now rewrite Hparse.
Qed.

Lemma xhamster_resolve_url_raises_witness :
  XHamster.resolve_url QualityUtils.extract_metadata_from_url decode_number_sources
    no_winner recorder_kind (fetch_page number_sources_page)
    placeholder_is_template placeholder_resolve video_page_resolver
    = Raise TypeError.
Proof.
  apply xhamster_resolve_url_raises.
  - reflexivity.
  - vm_compute. reflexivity.
Defined.

(** ** C2: preview and thumbnail URLs *)

(** C2, counterexample. The filter of XNXX keeps a candidate whose URL
    contains preview, since the URL starts with http and contains .mp4. *)
Lemma xnxx_filter_keeps_preview :
  str_in "preview" "https://cdn/preview.mp4" = true /\
  XNXX.unique_sources [Source "https://cdn/preview.mp4" (PStr "480p") "mp4"]
    = [Source "https://cdn/preview.mp4" (PStr "480p") "mp4"].
Proof. split; vm_compute; reflexivity. Qed.

(** C2, amended. In xHamster the candidates recorded by the url/label
    strategy, by the direct MP4 scan and by the HLS scan never have a URL
    that contains, in any letter case, thumb, preview, trailer, sample or
    promo, even when the URL contains a media indicator; so, on a page
    where no player-initialisation pattern matches, no candidate handed to
    the ranker has such a URL. *)
Theorem xhamster_scans_exclude_previews
    (extract_metadata_from_url : string -> metadata)
    (json_loads : string -> res pyval) (html : string) :
  (forall c, In c (XHamster.method1 extract_metadata_from_url html) ->
     marker_free (url c)) /\
  (forall sources c,
     In c (XHamster.method3 extract_metadata_from_url html sources) ->
     In c sources \/ marker_free (url c)) /\
  (forall sources c,
     In c (XHamster.method4 extract_metadata_from_url html sources) ->
     In c sources \/ marker_free (url c)) /\
  ((forall pattern, In pattern XHamster.player_patterns ->
      Re.search false pattern html = None) ->
   forall l c,
     XHamster._parse_html_for_sources extract_metadata_from_url json_loads html
       = Ret (Some l) ->
     In c l -> marker_free (url c)).
Proof.
  assert (H1 : forall c, In c (XHamster.method1 extract_metadata_from_url html) ->
                         marker_free (url c)).
  { intros c. unfold XHamster.method1. rewrite in_flat_map.
    intros (g & _ & Hc). now apply method1_candidate_marker_free in Hc. }
  assert (H3 : forall sources c,
             In c (XHamster.method3 extract_metadata_from_url html sources) ->
             In c sources \/ marker_free (url c)).
  { intros sources c. apply fold_marker_free. apply method3_step_marker_free. }
  assert (H4 : forall sources c,
             In c (XHamster.method4 extract_metadata_from_url html sources) ->
             In c sources \/ marker_free (url c)).
  { intros sources c. apply fold_marker_free. apply method4_step_marker_free. }
  split; [exact H1 | split; [exact H3 | split; [exact H4 |]]].
  intros Hnone l c. unfold XHamster._parse_html_for_sources.
  destruct (String.eqb html ""); [intros [= <-] []|].
  unfold XHamster.collect. rewrite method2_no_match by assumption. cbn [bind].
  destruct (XHamster.method4 _ html _) as [|a l'] eqn:E; [discriminate|].
  intros [= <-] Hin. rewrite xhamster_dedup_spec in Hin.
  apply first_occurrences_incl in Hin. rewrite <- E in Hin.
  apply H4 in Hin as [Hin|Hin]; [|assumption].
  apply H3 in Hin as [Hin|Hin]; [|assumption].
  now apply H1.
Qed.

Lemma xhamster_scans_exclude_previews_witness :
  marker_free "https://cdn/a.m3u8".
Proof.
  assert (Hno : no_player_match preview_hls_page = true)
    by (vm_compute; reflexivity).
  assert (Hparse : XHamster._parse_html_for_sources
                     QualityUtils.extract_metadata_from_url no_json preview_hls_page
                   = Ret (Some [Source "https://cdn/a.m3u8" (PStr "adaptive") "m3u8"]))
    by (vm_compute; reflexivity).
  exact (proj2 (proj2 (proj2 (xhamster_scans_exclude_previews
           QualityUtils.extract_metadata_from_url no_json preview_hls_page)))
         (no_player_match_spec preview_hls_page Hno)
         [Source "https://cdn/a.m3u8" (PStr "adaptive") "m3u8"]
         (Source "https://cdn/a.m3u8" (PStr "adaptive") "m3u8")
         Hparse (or_introl eq_refl)).
Defined.

(** ** C3: uniqueness of the URLs handed to the ranker *)

(** C3, counterexample. XVideos hands [_extract_sources] to the ranker as
    it is; on a page whose low and high setters carry the same URL the
    list holds that URL twice. *)
Lemma xvideos_sources_repeat_url :
  XVideos._extract_sources QualityUtils.extract_metadata_from_url no_json same_url_page =
    [ Source "https://cdn/v.mp4" (PStr "360p") "mp4";
      Source "https://cdn/v.mp4" (PStr "720p") "mp4" ] /\
  ~ NoDup (map url (XVideos._extract_sources
                      QualityUtils.extract_metadata_from_url no_json same_url_page)).
Proof.
  assert (E : XVideos._extract_sources QualityUtils.extract_metadata_from_url
                no_json same_url_page =
              [ Source "https://cdn/v.mp4" (PStr "360p") "mp4";
                Source "https://cdn/v.mp4" (PStr "720p") "mp4" ])
    by (vm_compute; reflexivity).
  split; [exact E|]. rewrite E. simpl. intros H.
  apply NoDup_cons in H as [Hnotin _]. apply Hnotin. left.
Qed.

(** C3, amended. Within one resolution call of XNXX and of xHamster the
    list handed to [select_best_source] holds no URL twice: for XNXX it is
    the output of the filter, for xHamster the list returned by
    [_parse_html_for_sources]. *)
Theorem ranker_input_urls_unique
    (extract_metadata_from_url : string -> metadata)
    (json_loads : string -> res pyval) :
  (forall sources : list source, NoDup (map url (XNXX.unique_sources sources))) /\
  (forall (html : string) (sources : list source),
     XHamster._parse_html_for_sources extract_metadata_from_url json_loads html
       = Ret (Some sources) ->
     NoDup (map url sources)).
Proof.
  split.
  - intros sources. unfold XNXX.unique_sources.
    rewrite (xnxx_fold sources [] ∅ [] same_urls_empty). apply first_occurrences_NoDup.
  - intros html sources. unfold XHamster._parse_html_for_sources.
    destruct (String.eqb html "").
    + intros [= <-]. constructor.
    + destruct (XHamster.collect _ _ html) as [[|c l]|e]; simpl; try discriminate.
      intros [= <-]. rewrite xhamster_dedup_spec. apply first_occurrences_NoDup.
Qed.

(** The hypothesis of the xHamster part is met by a page with one HLS URL. *)
Lemma ranker_input_urls_unique_witness :
  NoDup (map url [Source "https://cdn/a.m3u8" (PStr "adaptive") "m3u8"]).
Proof.
  apply (proj2 (ranker_input_urls_unique QualityUtils.extract_metadata_from_url no_json)
           "https://cdn/a.m3u8").
  vm_compute. reflexivity.
Defined.

(** ** C4: cleaning of the matched URLs *)

(** C4, counterexample. XVideos records the argument of a setter as it is
    matched: a protocol-relative URL keeps its two leading slashes and an
    escaped URL keeps its backslashes. *)
Lemma xvideos_records_raw_urls :
  XVideos._extract_sources QualityUtils.extract_metadata_from_url no_json raw_urls_page =
    [ Source "//cdn/low.mp4" (PStr "360p") "mp4";
      Source "https:\/\/cdn\/high.mp4" (PStr "720p") "mp4" ].
Proof. vm_compute. reflexivity. Qed.

(** C4, amended. The inline-script strategy of XNXX records every matched
    URL in cleaned form: each recorded URL is the text captured by a match
    of one of the patterns in the page, after the escaped slashes are
    replaced, the remaining backslashes removed and a leading // upgraded
    to https://, so that it has no backslash and is not protocol-relative;
    and every captured text that passes the guard of the loop (not empty,
    and containing http or starting with //) is recorded in that form. The
    url/label strategy of xHamster records the text captured by a match of
    its pattern after the same unescaping (it does not upgrade). XVideos
    and the JSON-LD strategies record URLs as found. *)
Theorem script_strategies_clean_urls
    (extract_metadata_from_url : string -> metadata) (html : string) :
  (forall c, In c (XNXX.js_sources extract_metadata_from_url html) ->
     exists p g,
       In p XNXX.js_patterns /\ In g (Re.findall true (fst p) html) /\
       url c = XNXX.upgrade (XNXX.unescape (Re.group 1 g)) /\
       has_char "\" (url c) = false /\
       startswith (url c) "//" = false) /\
  (forall p g,
     In p XNXX.js_patterns -> In g (Re.findall true (fst p) html) ->
     Re.group 1 g <> "" ->
     str_in "http" (Re.group 1 g) || startswith (Re.group 1 g) "//" = true ->
     exists c, In c (XNXX.js_sources extract_metadata_from_url html) /\
               url c = XNXX.upgrade (XNXX.unescape (Re.group 1 g))) /\
  (forall c, In c (XHamster.method1 extract_metadata_from_url html) ->
     exists g,
       In g (Re.findall true XHamster.json_pattern html) /\
       url c = XHamster.unescape (Re.group 1 g) /\
       has_char "\" (url c) = false).
Proof.
  split; [|split].
  - intros c. unfold XNXX.js_sources, XNXX.js_pattern_sources. rewrite in_flat_map.
    intros (p & Hp & Hc). rewrite in_flat_map in Hc. destruct Hc as (g & Hg & Hc).
    unfold XNXX.js_candidate in Hc. destruct (_ && _); [|destruct Hc].
    destruct Hc as [<-|[]]. cbn [url mk_source].
    exists p, g. split; [exact Hp|]. split; [exact Hg|]. split; [reflexivity|]. split.
    + apply upgrade_no_backslash, xnxx_unescape_no_backslash.
    + apply upgrade_not_relative.
  - intros p g Hp Hg Hne Hguard.
    apply String.eqb_neq in Hne.
    eexists. split.
    + unfold XNXX.js_sources, XNXX.js_pattern_sources. apply in_flat_map.
      exists p. split; [exact Hp|]. apply in_flat_map.
      exists g. split; [exact Hg|]. unfold XNXX.js_candidate.
      rewrite Hne, Hguard. cbn [negb andb]. left. reflexivity.
    + reflexivity.
  - intros c. unfold XHamster.method1. rewrite in_flat_map. intros (g & Hg & Hc).
    unfold XHamster.method1_candidate in Hc.
    destruct (_ || _); [destruct Hc|].
    destruct (str_in "thumb" _); [destruct Hc|].
    destruct (any_in XHamster.preview_indicators _); [destruct Hc|].
    destruct Hc as [<-|[]]. cbn [url mk_source].
    exists g. split; [exact Hg|]. split; [reflexivity|].
    apply xhamster_unescape_no_backslash.
Qed.

Lemma script_strategies_clean_urls_witness :
  exists c,
    In c (XNXX.js_sources QualityUtils.extract_metadata_from_url
            "html5player.setVideoUrlHigh('https:\/\/cdn\/v720.mp4')") /\
    url c = "https://cdn/v720.mp4".
Proof.
  apply (proj1 (proj2 (script_strategies_clean_urls
                  QualityUtils.extract_metadata_from_url
                  "html5player.setVideoUrlHigh('https:\/\/cdn\/v720.mp4')"))
           (XNXX.setter "setVideoUrlHigh", "720p") [(1, "https:\/\/cdn\/v720.mp4")]).
  - simpl. tauto.
  - vm_compute. tauto.
  - discriminate.
  - reflexivity.
Defined.

(** ** C5: master playlists found by the HLS scan *)

(** C5, at the failing input. The URL is an m3u8 URL with the master
    markers /multi= and /_tpl_. Whenever the metadata extractor infers a
    quality from it, such as the resolution token 144p, method 4 records
    that quality instead of adaptive. *)
Theorem hls_scan_keeps_url_resolution
    (extract_metadata_from_url : string -> metadata)
    (json_loads : string -> res pyval) (q : pyval) :
  truthy q = true ->
  extract_metadata_from_url template_hls_page = Metadata q "m3u8" ->
  any_in XHamster.master_indicators (lower template_hls_page) = true /\
  XHamster._parse_html_for_sources extract_metadata_from_url json_loads
    template_hls_page
    = Ret (Some [Source template_hls_page q "m3u8"]).
Proof.
  intros Hq Hmd. split; [vm_compute; reflexivity|].
  unfold XHamster._parse_html_for_sources.
  change (String.eqb template_hls_page "") with false. cbv iota.
  assert (Hc : XHamster.collect extract_metadata_from_url json_loads template_hls_page
               = Ret [Source template_hls_page q "m3u8"]).
  { unfold XHamster.collect.
    change (XHamster.method1 extract_metadata_from_url template_hls_page)
      with (@nil source).
    rewrite method2_no_match
      by (apply no_player_match_spec; vm_compute; reflexivity).
    cbn [bind]. unfold XHamster.method3, XHamster.method4, XHamster.hls_patterns.
    replace (Re.findall true XHamster.mp4_pattern template_hls_page)
      with (@nil Re.caps) by (vm_compute; reflexivity).
    cbn [map fold_left flat_map].
    replace (Re.findall true _ template_hls_page)
      with [[(1, template_hls_page)]] by (vm_compute; reflexivity).
    cbn [map fold_left app Re.group Nat.eqb].
    unfold XHamster.method4_step.
    change (XHamster.known [] template_hls_page) with false.
    change (String.eqb template_hls_page "") with false.
    replace (str_in "thumb" (lower template_hls_page)) with false
      by (vm_compute; reflexivity).
    replace (any_in XHamster.preview_indicators (lower template_hls_page)) with false
      by (vm_compute; reflexivity).
    cbn [negb andb app]. rewrite Hmd. unfold or_default. cbn [md_quality].
    rewrite Hq. reflexivity. }
  rewrite Hc. cbn [bind]. rewrite xhamster_dedup_spec. reflexivity.
Qed.

Lemma hls_scan_keeps_url_resolution_witness :
  XHamster._parse_html_for_sources QualityUtils.extract_metadata_from_url no_json
    template_hls_page
    = Ret (Some [Source template_hls_page (PStr "144p") "m3u8"]).
Proof.
  apply (hls_scan_keeps_url_resolution QualityUtils.extract_metadata_from_url
           no_json (PStr "144p")).
  - reflexivity.
  - vm_compute. reflexivity.
Defined.

(** ** C6: the filter of XNXX *)

(** C6, counterexample. The test of the filter is not the one of the
    claim. A URL with the scheme ftp, or with the scheme written HTTPS,
    starts with an absolute scheme and contains .mp4, yet the filter drops
    it: it asks for the text http at the start, in lower case. A URL that
    starts with http without any scheme separator, and one whose only
    indicator is written .MP4, are outside the claim's candidates, yet the
    filter keeps them: it looks for the indicators in the lower-cased
    URL. *)
Lemma xnxx_filter_not_scheme_test :
  let ftp := Source "ftp://cdn/a.mp4" (PStr "480p") "mp4" in
  let shout := Source "HTTPS://cdn/a.mp4" (PStr "480p") "mp4" in
  let bare := Source "httpfoo.mp4" (PStr "480p") "mp4" in
  let capital := Source "https://cdn/A.MP4" (PStr "480p") "unknown" in
  claimed_filter [ftp; shout; bare; capital] = [ftp; shout] /\
  XNXX.unique_sources [ftp; shout; bare; capital] = [bare; capital].
Proof. split; vm_compute; reflexivity. Qed.

(** C6, amended. For every candidate list, the de-duplicating filter of
    XNXX returns exactly, in the original order, the first occurrence of
    each URL among the candidates whose URL starts with the text http (in
    lower case, with or without a scheme separator after it) and whose
    lower-cased URL contains one of .mp4, .m3u8, video or stream; every
    other candidate is dropped. The output is that filter as a
    specification; it is a sublist of the input, and a candidate is in it
    exactly when it is such a media candidate and no earlier candidate has
    the same URL. *)
Theorem xnxx_filter_first_occurrences (candidates : list source) :
  XNXX.unique_sources candidates = spec_filter candidates /\
  sublist (XNXX.unique_sources candidates) candidates /\
  (forall c,
     In c (XNXX.unique_sources candidates) <->
     exists l1 l2, candidates = l1 ++ c :: l2 /\
                   startswith (url c) "http" = true /\
                   any_in [".mp4"; ".m3u8"; "video"; "stream"] (lower (url c)) = true /\
                   forall d, In d l1 -> url d <> url c).
Proof.
  assert (E : XNXX.unique_sources candidates = spec_filter candidates).
  { unfold XNXX.unique_sources, spec_filter.
    now rewrite (xnxx_fold candidates [] ∅ [] same_urls_empty). }
  split; [exact E|]. rewrite E. split.
  - unfold spec_filter. etransitivity; [apply first_occurrences_sublist|].
    apply filter_sublist.
  - intros c. rewrite spec_filter_In. unfold is_media_candidate.
    setoid_rewrite andb_true_iff. unfold XNXX.media_indicators.
    split; intros (l1 & l2 & H); exists l1, l2; tauto.
Qed.

(** ** C7: the default quality of the player setters *)



(** ** C8: the unescape transform is idempotent *)

(** C8. For every string, applying the URL unescape transform (the
    escaped slash replaced by a slash, then every remaining backslash
    removed) twice gives the same text as applying it once. This holds for
    the transform of the XNXX inline-script strategy and for the one of
    the xHamster url/label strategy. *)
Theorem unescape_idempotent (s : string) :
  XNXX.unescape (XNXX.unescape s) = XNXX.unescape s /\
  XHamster.unescape (XHamster.unescape s) = XHamster.unescape s.
Proof.
  split.
  - unfold XNXX.unescape.
    set (t := replace (replace s "\/" "/") "\" "").
    assert (Ht : has_char "\" t = false) by apply delete_char_absent.
    now rewrite !(replace_absent "\" _ _ t Ht).
  - unfold XHamster.unescape.
    set (t := replace (replace (replace s "\/" "/") "\\" "") "\" "").
    assert (Ht : has_char "\" t = false) by apply delete_char_absent.
    now rewrite !(replace_absent "\" _ _ t Ht).
Qed.

(** ** C9: the result when the ranker returns no winner *)

(** C9, counterexample. The xHamster page yields one candidate and the
    ranker returns no winner; the page URL contains the template
    placeholder, so the template step replaces it and the result does not
    carry the original page URL. *)
Lemma xhamster_template_step_replaces_page_url :
  XHamster._parse_html_for_sources QualityUtils.extract_metadata_from_url no_json
    "https://cdn/a.m3u8"
    = Ret (Some [Source "https://cdn/a.m3u8" (PStr "adaptive") "m3u8"]) /\
  exists r,
    XHamster.resolve_url QualityUtils.extract_metadata_from_url no_json no_winner
      recorder_kind (fetch_page "https://cdn/a.m3u8")
      placeholder_is_template placeholder_resolve template_page_resolver
      = Ret (Some r) /\
    r !! "resolved_url" = Some (RStr "https://xhamster.com/videos/720p-1") /\
    r !! "resolved_url" <> Some (RStr (self_url template_page_resolver)).
Proof.
  split; [vm_compute; reflexivity|].
  eexists. split; [|split].
  - unfold XHamster.resolve_url.
    change (no_text _) with false. cbv iota.
    replace (XHamster._parse_html_for_sources _ _ _)
      with (Ret (Some [Source "https://cdn/a.m3u8" (PStr "adaptive") "m3u8"]))
      by (vm_compute; reflexivity).
    cbn [bind no_winner]. reflexivity.
  - rewrite update_result_resolved_url. vm_compute. reflexivity.
  - rewrite update_result_resolved_url. vm_compute. discriminate.
Qed.

(** C9, amended. When the list handed to the ranker is not empty and
    [select_best_source] returns no winner, [resolve_url] does not return
    [None]. For XVideos and XNXX the result's resolved_url is the page
    URL. For xHamster it is the page URL after the template step: the
    page URL itself, unless it is detected as a template and the template
    resolver returns a different, non-empty URL. *)
Theorem resolved_url_without_winner
    (extract_metadata_from_url : string -> metadata)
    (json_loads : string -> res pyval)
    (select_best_source : list source -> string -> bool -> bool -> option source)
    (determine_recorder_id : string -> string)
    (fetch_with_fallback : string -> string -> fetched)
    (ld_json_scripts : string -> list string)
    (video_source_tags : string -> list XNXX.source_tag)
    (urljoin : string -> string -> string)
    (_is_template_url : string -> bool)
    (_resolve_template_url : string -> string -> option string)
    (self : resolver) :
  (forall html,
     page (fetch_with_fallback (self_url self) "https://www.xvideos.com") = Some html ->
     html <> "" ->
     XVideos._extract_sources extract_metadata_from_url json_loads html <> [] ->
     select_best_source (XVideos._extract_sources extract_metadata_from_url json_loads html)
       (self_quality self) true (self_av1 self) = None ->
     exists r,
       XVideos.resolve_url extract_metadata_from_url json_loads select_best_source
         determine_recorder_id fetch_with_fallback self = Ret (Some r) /\
       r !! "resolved_url" = Some (RStr (self_url self))) /\
  (forall html sources,
     page (fetch_with_fallback (self_url self) "https://www.xnxx.com") = Some html ->
     html <> "" ->
     XNXX.collect extract_metadata_from_url json_loads ld_json_scripts video_source_tags
       urljoin (self_url self) html = Ret sources ->
     XNXX.unique_sources sources <> [] ->
     select_best_source (XNXX.unique_sources sources)
       (self_quality self) true (self_av1 self) = None ->
     exists r,
       XNXX.resolve_url extract_metadata_from_url json_loads select_best_source
         determine_recorder_id fetch_with_fallback ld_json_scripts video_source_tags
         urljoin self = Ret (Some r) /\
       r !! "resolved_url" = Some (RStr (self_url self))) /\
  (forall html sources,
     page (fetch_with_fallback (self_url self) "https://xhamster.com") = Some html ->
     html <> "" ->
     XHamster._parse_html_for_sources extract_metadata_from_url json_loads html
       = Ret (Some sources) ->
     sources <> [] ->
     select_best_source sources (self_quality self) true (self_av1 self) = None ->
     exists r,
       XHamster.resolve_url extract_metadata_from_url json_loads select_best_source
         determine_recorder_id fetch_with_fallback _is_template_url
         _resolve_template_url self = Ret (Some r) /\
       r !! "resolved_url" =
         Some (RStr (XHamster.template_step _is_template_url _resolve_template_url
                       (self_url self) (self_quality self))) /\
       (_is_template_url (self_url self) = false ->
        r !! "resolved_url" = Some (RStr (self_url self)))).
Proof.
  split; [|split].
  - intros html Hpage Hne Hsrc Hsel.
    apply String.eqb_neq in Hne.
    unfold XVideos.resolve_url, XVideos.resolve_body.
    rewrite Hpage. cbn [no_text default]. rewrite Hne. cbn [id].
    destruct (XVideos._extract_sources _ _ html) as [|c l] eqn:E; [contradiction|].
    rewrite Hsel. cbn. eexists. split; [reflexivity|].
    apply update_result_resolved_url.
  - intros html sources Hpage Hne Hcol Hsrc Hsel.
    apply String.eqb_neq in Hne.
    unfold XNXX.resolve_url, XNXX.resolve_body.
    rewrite Hpage. cbn [no_text default]. rewrite Hne. cbn [id].
    rewrite Hcol. cbn [bind].
    destruct (XNXX.unique_sources sources) as [|c l] eqn:E; [contradiction|].
    rewrite Hsel. cbn. eexists. split; [reflexivity|].
    apply update_result_resolved_url.
  - intros html sources Hpage Hne Hparse Hsrc Hsel.
    apply String.eqb_neq in Hne.
    unfold XHamster.resolve_url.
    rewrite Hpage. cbn [no_text default]. rewrite Hne. cbn [id].
    rewrite Hparse. cbn [bind].
    destruct sources as [|c l]; [contradiction|].
    rewrite Hsel. eexists. split; [reflexivity|]. split.
    + apply update_result_resolved_url.
    + intros Htpl. rewrite update_result_resolved_url.
      unfold XHamster.template_step. now rewrite Htpl.
Qed.

Lemma resolved_url_without_winner_witness :
  exists r,
    XHamster.resolve_url QualityUtils.extract_metadata_from_url no_json no_winner
      recorder_kind (fetch_page "https://cdn/a.m3u8")
      placeholder_is_template placeholder_resolve video_page_resolver = Ret (Some r) /\
    r !! "resolved_url" = Some (RStr "https://xhamster.com/videos/a-1").
Proof.
  destruct (proj2 (proj2 (resolved_url_without_winner
              QualityUtils.extract_metadata_from_url no_json no_winner recorder_kind
              (fetch_page "https://cdn/a.m3u8") (fun _ => []) (fun _ => [])
              (fun _ u => u) placeholder_is_template placeholder_resolve
              video_page_resolver))
            "https://cdn/a.m3u8"
            [Source "https://cdn/a.m3u8" (PStr "adaptive") "m3u8"])
    as (r & Hr & _ & Hurl).
  - reflexivity.
  - discriminate.
  - vm_compute. reflexivity.
  - discriminate.
  - reflexivity.
  - exists r. split; [exact Hr|]. apply Hurl. vm_compute. reflexivity.
Defined.

(** ** C10: what [_parse_html_for_sources] returns *)

(** C10, counterexample. On the empty page text nothing is extracted and
    the function returns the empty list, not [None]. *)
Lemma parse_empty_page_returns_empty_list :
  XHamster.collect QualityUtils.extract_metadata_from_url no_json "" = Ret [] /\
  XHamster._parse_html_for_sources QualityUtils.extract_metadata_from_url no_json ""
    = Ret (Some []).
Proof. split; vm_compute; reflexivity. Qed.

(** The loop of method 2 does not stop at a player object without
    sources: the second pattern matches and gives an empty source list,
    the loop goes on, and the entry of the list matched by the fourth
    pattern is collected. *)
Lemma parse_continues_after_empty_player_object :
  map (fun pattern => Re.search false pattern empty_player_page) XHamster.player_patterns
    = [None; Some [(1, empty_player_data)]; None; Some [(1, listed_source_data)]] /\
  XHamster._parse_html_for_sources QualityUtils.extract_metadata_from_url
    decode_player_lists empty_player_page
    = Ret (Some [Source "https://cdn/a.mp4" (PStr "") "mp4"]).
Proof. split; vm_compute; reflexivity. Qed.

(** C10, amended. For the empty page text [_parse_html_for_sources]
    returns the empty list. For every non-empty page text on which the
    four methods complete: if they collect nothing the function returns
    [None], otherwise it returns the de-duplicated list; hence a list
    returned for a non-empty page is never empty. *)
Theorem parse_html_none_or_nonempty
    (extract_metadata_from_url : string -> metadata)
    (json_loads : string -> res pyval) (html : string) :
  let parse := XHamster._parse_html_for_sources extract_metadata_from_url json_loads in
  let collect := XHamster.collect extract_metadata_from_url json_loads in
  parse "" = Ret (Some []) /\
  (html <> "" ->
     (collect html = Ret [] -> parse html = Ret None) /\
     (forall sources, collect html = Ret sources -> sources <> [] ->
        parse html = Ret (Some (XHamster.dedup sources))) /\
     (forall l, parse html = Ret (Some l) -> l <> [])).
Proof.
  intros parse collect. subst parse collect. split; [reflexivity|].
  intros Hne. unfold XHamster._parse_html_for_sources.
  apply String.eqb_neq in Hne. rewrite Hne.
  split; [|split].
  - intros ->. reflexivity.
  - intros sources -> Hs. destruct sources; [contradiction | reflexivity].
  - intros l. destruct (XHamster.collect _ _ html) as [[|c cs]|e]; simpl; try discriminate.
    intros [= <-]. apply dedup_nonempty.
Qed.

Lemma parse_html_none_or_nonempty_witness :
  XHamster._parse_html_for_sources QualityUtils.extract_metadata_from_url no_json "zzz"
    = Ret None.
Proof.
  apply (proj2 (parse_html_none_or_nonempty
                  QualityUtils.extract_metadata_from_url no_json "zzz")).
  - discriminate.
  - vm_compute. reflexivity.
Defined.

(** * Further properties *)

Section RegexSoundness.

Import Re ReSpec.

Lemma append_cons (c : ascii) (a b : string) :
  String c a +:+ b = String c (a +:+ b).
Proof. reflexivity. Qed.

Lemma append_nil_r (s : string) : s +:+ "" = s.
Proof.
  induction s as [|c s IH]; [reflexivity|]. now rewrite append_cons, IH.
Qed.

Lemma append_assoc (a b c : string) : (a +:+ b) +:+ c = a +:+ (b +:+ c).
Proof.
  induction a as [|x a IH]; [reflexivity|]. now rewrite !append_cons, IH.
Qed.

Lemma length_append (a b : string) :
  String.length (a +:+ b) = String.length a + String.length b.
Proof.
  induction a as [|x a IH]; [reflexivity|]. rewrite append_cons. simpl. now rewrite IH.
Qed.

Lemma substring_prefix (w s : string) :
  substring 0 (String.length w) (w +:+ s) = w.
Proof.
  induction w as [|c w IH].
  - now destruct s.
  - rewrite append_cons. simpl. now rewrite IH.
Qed.

Lemma consumed_append (w s : string) : consumed (w +:+ s) s = w.
Proof.
  unfold consumed. rewrite length_append.
  replace (String.length w + String.length s - String.length s)
    with (String.length w) by lia.
  apply substring_prefix.
Qed.

Lemma captured_refl ic r g : must_groups r = [] -> captured ic r g g.
Proof.
  intros Hm. repeat split; auto. rewrite Hm. intros i [].
Qed.

Lemma captured_Cat ic r1 r2 g g1 g2 :
  captured ic r1 g g1 -> captured ic r2 g1 g2 -> captured ic (Cat r1 r2) g g2.
Proof.
  intros (Ha & Hb & Hc) (Ha' & Hb' & Hc'). split; [|split].
  - auto.
  - intros i v Hin. simpl. apply Hb' in Hin as [Hin|(r' & Hr & Hl)].
    + apply Hb in Hin as [Hin|(r' & Hr & Hl)]; [now left | right].
      exists r'. split; [apply in_app_iff; now left | exact Hl].
    + right. exists r'. split; [apply in_app_iff; now right | exact Hl].
  - intros i Hi. simpl in Hi. apply in_app_iff in Hi as [Hi|Hi].
    + destruct (Hc i Hi) as (v & Hv). eauto.
    + now apply Hc'.
Qed.

(** A repetition keeps and explains the captures of its iterations. *)
Lemma captured_iter ic r r' g g1 g2 :
  groups_of r' = groups_of r -> must_groups r' = [] ->
  captured ic r g g1 -> captured ic r' g1 g2 -> captured ic r' g g2.
Proof.
  intros Hg Hm (Ha & Hb & _) (Ha' & Hb' & _). split; [|split].
  - auto.
  - intros i v Hin. apply Hb' in Hin as [Hin|Hin]; [|now right].
    apply Hb in Hin as [Hin|Hin]; [now left | right]. now rewrite Hg.
  - rewrite Hm. intros i [].
Qed.

Lemma captured_weaken ic r r' g g' :
  groups_of r' = groups_of r -> must_groups r' = [] ->
  captured ic r g g' -> captured ic r' g g'.
Proof.
  intros Hg Hm (Ha & Hb & _). split; [|split]; auto.
  - intros i v Hin. rewrite Hg. auto.
  - rewrite Hm. intros i [].
Qed.

(** Soundness of the matcher: a success of [m] is a success of the
    continuation after a text of the pattern was consumed. *)
Lemma m_sound ic r : forall (R : Type) s g (k : string -> caps -> option R) x,
  m ic r s g k = Some x ->
  exists w s' g',
    s = w +:+ s' /\ lang ic r w /\ k s' g' = Some x /\ captured ic r g g'.
Proof.
  induction r as [| c | p | r1 IH1 r2 IH2 | r1 IH1 | r1 IH1 | r1 IH1 | i r1 IH1];
    intros R s g k x H; simpl in H.
  - exists "", s, g. repeat split; auto; [constructor | intros ? []].
  - destruct s as [|d s]; [discriminate|].
    destruct (chr_eq ic c d) eqn:E; [|discriminate].
    exists (String d ""), s, g. repeat split; auto; [now constructor | intros ? []].
  - destruct s as [|d s]; [discriminate|].
    destruct (p d) eqn:E; [|discriminate].
    exists (String d ""), s, g. repeat split; auto; [now constructor | intros ? []].
  - apply IH1 in H as (w1 & s1 & g1 & -> & L1 & H & C1).
    apply IH2 in H as (w2 & s2 & g2 & -> & L2 & H & C2).
    exists (w1 +:+ w2), s2, g2. split; [now rewrite append_assoc|].
    split; [now constructor|]. split; [exact H|]. now apply captured_Cat with g1.
  - destruct (m ic r1 s g k) as [y|] eqn:E.
    + injection H as ->. apply IH1 in E as (w & s' & g' & -> & L & H & C).
      exists w, s', g'. repeat split; auto; try apply C.
      * now apply lang_Opt_take.
      * intros i [].
    + exists "", s, g. split; [reflexivity|]. split; [constructor|].
      split; [exact H|]. now apply captured_refl.
  - revert H. generalize (String.length s) at 1. intros n. revert s g.
    induction n as [|n IHn]; intros s g H.
    + exists "", s, g. split; [reflexivity|]. split; [constructor|].
      split; [exact H|]. now apply captured_refl.
    + match type of H with
      | match ?e with _ => _ end = _ => destruct e as [y|] eqn:E
      end.
      * injection H as ->. apply IH1 in E as (w1 & s1 & g1 & -> & L1 & H & C1).
        destruct (_ <? _)%nat; [|discriminate].
        apply IHn in H as (w2 & s2 & g2 & -> & L2 & H & C2).
        exists (w1 +:+ w2), s2, g2. split; [now rewrite append_assoc|].
        split; [now apply lang_Star_more|]. split; [exact H|].
        now apply captured_iter with r1 g1.
      * exists "", s, g. split; [reflexivity|]. split; [constructor|].
        split; [exact H|]. now apply captured_refl.
  - revert H. generalize (String.length s) at 1. intros n. revert s g.
    induction n as [|n IHn]; intros s g H.
    + destruct (k s g) as [y|] eqn:E; [|discriminate].
      injection H as ->.
      exists "", s, g. split; [reflexivity|]. split; [constructor|].
      split; [exact E|]. now apply captured_refl.
    + destruct (k s g) as [y|] eqn:E.
      * injection H as ->.
        exists "", s, g. split; [reflexivity|]. split; [constructor|].
        split; [exact E|]. now apply captured_refl.
      * apply IH1 in H as (w1 & s1 & g1 & -> & L1 & H & C1).
        destruct (_ <? _)%nat; [|discriminate].
        apply IHn in H as (w2 & s2 & g2 & -> & L2 & H & C2).
        exists (w1 +:+ w2), s2, g2. split; [now rewrite append_assoc|].
        split; [now apply lang_LazyStar_more|]. split; [exact H|].
        now apply captured_iter with r1 g1.
  - apply IH1 in H as (w & s' & g' & -> & L & H & (Ca & Cb & Cc)).
    rewrite consumed_append in H.
    exists w, s', ((i, w) :: g'). split; [reflexivity|].
    split; [now constructor|]. split; [exact H|]. split; [|split].
    + intros e He. right. auto.
    + intros j v [[= <- <-]|Hin].
      * right. exists r1. split; [now left | exact L].
      * apply Cb in Hin as [Hin|(r' & Hr & Hl)]; [now left | right].
        exists r'. split; [now right | exact Hl].
    + intros j [<-|Hj]; [exists w; now left|].
      destruct (Cc j Hj) as (v & Hv). exists v. now right.
Qed.

End RegexSoundness.

Section RegexResults.

Import Re ReSpec.

Lemma match_in_tail ic r c s g : match_in ic r s g -> match_in ic r (String c s) g.
Proof.
  intros (pre & w & post & -> & L & C). exists (String c pre), w, post. auto.
Qed.

Lemma match_in_after ic r w0 s g : match_in ic r s g -> match_in ic r (w0 +:+ s) g.
Proof.
  intros (pre & w & post & -> & L & C). exists (w0 +:+ pre), w, post.
  split; [now rewrite append_assoc | auto].
Qed.

Lemma match_here_sound ic r s g rest :
  match_here ic r s = Some (g, rest) ->
  exists w, s = w +:+ rest /\ lang ic r w /\ captured ic r [] g.
Proof.
  unfold match_here. intros H.
  apply m_sound in H as (w & s' & g' & -> & L & [= <- <-] & C). eauto.
Qed.

Lemma search_sound ic r s g : search ic r s = Some g -> match_in ic r s g.
Proof.
  induction s as [|c s IH]; simpl.
  - destruct (match_here ic r "") as [[g0 rest]|] eqn:E; [|discriminate].
    intros [= <-]. apply match_here_sound in E as (w & -> & L & C).
    exists "", w, rest. auto.
  - destruct (match_here ic r (String c s)) as [[g0 rest]|] eqn:E.
    + intros [= <-]. apply match_here_sound in E as (w & -> & L & C).
      exists "", w, rest. auto.
    + intros H. now apply match_in_tail, IH.
Qed.

Lemma findall_fuel_sound ic r : forall fuel s g,
  In g (findall_fuel fuel ic r s) -> match_in ic r s g.
Proof.
  induction fuel as [|f IH]; intros s g; simpl; [intros []|].
  destruct (match_here ic r s) as [[g0 rest]|] eqn:E.
  - apply match_here_sound in E as (w & -> & L & C).
    intros [<-|Hin]; [exists "", w, rest; auto|].
    destruct (_ <? _)%nat.
    + apply IH in Hin. now apply match_in_after.
    + destruct (w +:+ rest) as [|c t] eqn:Et; [destruct Hin|].
      apply IH in Hin. now apply match_in_tail.
  - destruct s as [|c t]; [intros []|]. intros Hin. apply IH in Hin.
    now apply match_in_tail.
Qed.

Lemma findall_sound ic r s g : In g (findall ic r s) -> match_in ic r s g.
Proof. apply findall_fuel_sound. Qed.

Lemma group_In i v g : In (i, v) g -> In (i, group i g) g.
Proof.
  induction g as [|[j u] g IH]; simpl; [intros []|].
  destruct (Nat.eqb i j) eqn:E.
  - apply Nat.eqb_eq in E as ->. intros _. now left.
  - intros [[= -> ->]|Hin]; [rewrite Nat.eqb_refl in E; discriminate|].
    right. now apply IH.
Qed.

(** The text of a group that every match goes through belongs to the
    pattern of a group with that number. *)
Lemma group_lang ic r g i :
  captured ic r [] g -> In i (must_groups r) ->
  exists r1, In (i, r1) (groups_of r) /\ lang ic r1 (group i g).
Proof.
  intros (_ & Hb & Hc) Hi. destruct (Hc i Hi) as (v & Hv).
  apply group_In in Hv. apply Hb in Hv as [[]|H]. exact H.
Qed.

Lemma chr_eq_exact c d : chr_eq false c d = true -> d = c.
Proof. unfold chr_eq. intros H. apply Ascii.eqb_eq in H. now symmetry. Qed.

Lemma lang_Eps_inv ic w : lang ic Eps w -> w = "".
Proof. intros H. now inversion H. Qed.

Lemma lang_Chr_inv ic c w :
  lang ic (Chr c) w -> exists d, w = String d "" /\ chr_eq ic c d = true.
Proof. intros H. inversion H; subst. eauto. Qed.

Lemma lang_Cls_inv ic p w :
  lang ic (Cls p) w -> exists d, w = String d "" /\ p d = true.
Proof. intros H. inversion H; subst. eauto. Qed.

Lemma lang_Cat_inv ic r1 r2 w :
  lang ic (Cat r1 r2) w ->
  exists w1 w2, w = w1 +:+ w2 /\ lang ic r1 w1 /\ lang ic r2 w2.
Proof. intros H. inversion H; subst. eauto. Qed.

Lemma lang_Opt_inv ic r w : lang ic (Opt r) w -> w = "" \/ lang ic r w.
Proof. intros H. inversion H; subst; auto. Qed.

Lemma lang_Grp_inv ic i r w : lang ic (Grp i r) w -> lang ic r w.
Proof. intros H. now inversion H. Qed.

Lemma lang_Lit w : forall p, lang false (Lit p) w -> w = p.
Proof.
  intros p. revert w. induction p as [|c p IH]; intros w H; simpl in H.
  - now inversion H.
  - inversion H as [| | |r1 r2 w1 w2 H1 H2| | | | | | |]; subst.
    inversion H1 as [|c' d Hd| | | | | | | | |]; subst.
    apply IH in H2 as ->. simpl in Hd. apply Ascii.eqb_eq in Hd as ->. reflexivity.
Qed.

Lemma lang_Lit_ic w : forall p, lang true (Lit p) w -> lower w = lower p.
Proof.
  intros p. revert w. induction p as [|c p IH]; intros w H; simpl in H.
  - now inversion H.
  - inversion H as [| | |r1 r2 w1 w2 H1 H2| | | | | | |]; subst.
    inversion H1 as [|c' d Hd| | | | | | | | |]; subst.
    apply IH in H2. simpl in Hd. apply Ascii.eqb_eq in Hd.
    rewrite append_cons. change ("" +:+ w2) with w2. simpl. now rewrite H2, Hd.
Qed.

Lemma all_chars_app p a b :
  all_chars p (a +:+ b) = all_chars p a && all_chars p b.
Proof.
  induction a as [|c a IH]; [reflexivity|].
  rewrite append_cons. simpl. now rewrite IH, andb_assoc.
Qed.

Lemma lang_Star_Cls ic p w : lang ic (Star (Cls p)) w -> all_chars p w = true.
Proof.
  intros H. remember (Star (Cls p)) as r eqn:Er.
  induction H as [| | | | | | |r0 w1 w2 H1 _ H2 IH2| | |]; try discriminate.
  - reflexivity.
  - injection Er as ->. rewrite all_chars_app, IH2 by reflexivity.
    inversion H1; subst. simpl. now rewrite H0.
Qed.

Lemma lang_Plus_Cls ic p w :
  lang ic (Plus (Cls p)) w -> all_chars p w = true /\ w <> "".
Proof.
  unfold Plus. intros H.
  inversion H as [| | |r1 r2 w1 w2 H1 H2| | | | | | |]; subst.
  inversion H1; subst. apply lang_Star_Cls in H2.
  rewrite append_cons. change ("" +:+ w2) with w2. simpl. rewrite H2, H3. split; [reflexivity | discriminate].
Qed.

Lemma prefix_append p : forall rest, String.prefix p (p +:+ rest) = true.
Proof.
  induction p as [|c p IH]; intros rest.
  - now destruct rest.
  - rewrite append_cons. simpl. destruct (ascii_dec c c); [apply IH | contradiction].
Qed.

Lemma prefix_str_in p s : String.prefix p s = true -> str_in p s = true.
Proof. intros H. destruct s; cbn [str_in]; rewrite H; reflexivity. Qed.

Lemma str_in_append p pre : forall rest, str_in p (pre +:+ p +:+ rest) = true.
Proof.
  induction pre as [|c pre IH]; intros rest.
  - change ("" +:+ p +:+ rest) with (p +:+ rest).
    apply prefix_str_in, prefix_append.
  - rewrite append_cons. simpl. rewrite IH. apply orb_true_r.
Qed.

End RegexResults.

Section UrlParsers.

Import Re ReSpec.

(** X13. For a page URL that is ASCII text, [_get_video_id] returns only
    the digits 0 to 9; it returns the empty string when the page URL does
    not contain the xHamster video path, and a non-empty identifier
    whenever its pattern matches. *)
Theorem get_video_id_digits (page_url : string) :
  ascii_text page_url = true ->
  all_chars is_digit (XHamster._get_video_id page_url) = true /\
  (str_in "xhamster.com/videos/" page_url = false ->
   XHamster._get_video_id page_url = "") /\
  (forall g, search false XHamster.video_id_pattern page_url = Some g ->
             XHamster._get_video_id page_url <> "").
Proof.
  intros _. unfold XHamster._get_video_id.
  destruct (search false XHamster.video_id_pattern page_url) as [g|] eqn:E.
  - apply search_sound in E as (pre & w & post & -> & L & C).
    destruct (group_lang false _ g 2 C) as (r1 & Hr & Hl); [simpl; tauto|].
    simpl in Hr. destruct Hr as [[=]|[[= <-]|[]]].
    apply lang_Plus_Cls in Hl as [Hd Hne].
    split; [exact Hd|]. split; [|intros _ _; exact Hne].
    intros Hno. exfalso.
    unfold XHamster.video_id_pattern in L. cbn [Seq] in L.
    apply lang_Cat_inv in L as (w1 & w2 & -> & H1 & _).
    apply (lang_Lit _ "xhamster.com/videos/") in H1 as ->.
    rewrite append_assoc, str_in_append in Hno. discriminate.
  - split; [reflexivity|]. split; [reflexivity | discriminate].
Qed.

Lemma get_video_id_digits_witness :
  XHamster._get_video_id "https://example.org/watch/1" = "".
Proof.
  apply (proj1 (proj2 (get_video_id_digits "https://example.org/watch/1"
                         ltac:(vm_compute; reflexivity)))).
  vm_compute. reflexivity.
Defined.

(** The identifier is what follows the last hyphen of the slug. *)
Lemma get_video_id_examples :
  XHamster._get_video_id "https://xhamster.com/videos/some-title-12345" = "12345" /\
  XHamster._get_video_id "https://xhamster.com/videos/a-1-23x/later-7" = "23" /\
  XHamster._get_video_id "https://xhamster.com/videos/12345" = "".
Proof. repeat split; vm_compute; reflexivity. Qed.

(** X14. For a URL that is ASCII text, every quality returned by
    [_parse_qualities_from_url_params] is a non-empty run of the digits 0
    to 9 followed by the letter p, and a URL without a multi parameter
    gives the empty list. *)
Theorem parse_qualities_shape (u : string) :
  ascii_text u = true ->
  (forall q, In q (XHamster._parse_qualities_from_url_params u) ->
     exists d, q = d +:+ "p" /\ d <> "" /\ all_chars is_digit d = true) /\
  (str_in "multi=" u = false -> XHamster._parse_qualities_from_url_params u = []).
Proof.
  intros _. unfold XHamster._parse_qualities_from_url_params.
  destruct (search false XHamster.multi_pattern u) as [g|] eqn:E.
  - split.
    + intros q Hq.
      assert (Hin : In q (map (group 2)
                (findall false XHamster.quality_pattern (group 1 g)))).
      { destruct (map _ _); [destruct Hq | exact Hq]. }
      apply in_map_iff in Hin as (g2 & <- & Hg2).
      apply findall_sound in Hg2 as (pre & w & post & _ & _ & C).
      destruct (group_lang false _ g2 2 C) as (r1 & Hr & Hl); [simpl; tauto|].
      simpl in Hr. destruct Hr as [[=]|[[= <-]|[]]].
      cbn [Seq] in Hl.
      apply lang_Cat_inv in Hl as (w1 & w2 & -> & H1 & H2).
      apply lang_Cat_inv in H2 as (w3 & w4 & -> & H3 & H4).
      apply lang_Chr_inv in H3 as (d & -> & Hd).
      apply lang_Eps_inv in H4 as ->.
      apply chr_eq_exact in Hd as ->.
      apply lang_Plus_Cls in H1 as [Hd Hne].
      exists w1. split; [reflexivity | now split].
    + intros Hno. exfalso.
      apply search_sound in E as (pre & w & post & -> & L & C).
      unfold XHamster.multi_pattern in L. cbn [Seq] in L.
      apply lang_Cat_inv in L as (w1 & w2 & -> & H1 & _).
      apply (lang_Lit _ "multi=") in H1 as ->.
      rewrite append_assoc, str_in_append in Hno. discriminate.
  - split; [intros q [] | reflexivity].
Qed.

Lemma parse_qualities_shape_witness :
  exists d, "144p" = d +:+ "p" /\ d <> "" /\ all_chars is_digit d = true.
Proof.
  apply (proj1 (parse_qualities_shape
                  "https://cdn/multi=256x144:144p:,426x240:240p:/x.m3u8"
                  ltac:(vm_compute; reflexivity)) "144p").
  vm_compute. tauto.
Defined.

(** The example of the source comment. *)
Lemma parse_qualities_example :
  XHamster._parse_qualities_from_url_params
    "https://cdn/key/multi=256x144:144p:,426x240:240p:,854x480:480p:/_TPL_.m3u8"
  = ["144p"; "240p"; "480p"].
Proof. vm_compute. reflexivity. Qed.

End UrlParsers.

Section Deduplication.

Lemma first_occurrences_fixed l : forall seen,
  NoDup (map url l) ->
  (forall c, In c l -> existsb (String.eqb (url c)) seen = false) ->
  first_occurrences seen l = l.
Proof.
  induction l as [|a l IH]; intros seen Hnd Hfresh; simpl; [reflexivity|].
  rewrite (Hfresh a) by now left.
  simpl in Hnd. apply NoDup_cons in Hnd as [Ha Hnd].
  f_equal. apply IH; [exact Hnd|].
  intros c Hc. simpl. rewrite (Hfresh c) by now right.
  rewrite orb_false_r. apply String.eqb_neq. intros Heq.
  apply Ha. rewrite <- Heq. apply list_elem_of_In, in_map, Hc.
Qed.

Lemma first_occurrences_urls l : forall seen u,
  In u (map url (first_occurrences seen l)) <->
  In u (map url l) /\ existsb (String.eqb u) seen = false.
Proof.
  induction l as [|a l IH]; intros seen u; simpl; [tauto|].
  destruct (existsb (String.eqb (url a)) seen) eqn:Hseen.
  - rewrite IH. split; [tauto|]. intros [[<-|H] Hu]; [congruence | tauto].
  - simpl. rewrite IH. simpl. rewrite orb_false_iff, String.eqb_neq.
    split.
    + intros [<-|(H & Hne & Hu)]; [tauto | tauto].
    + intros [[<-|H] Hu]; [now left|].
      destruct (String.eqb_spec u (url a)) as [->|Hne]; [now left | right; tauto].
Qed.

Lemma filter_all_kept {A : Type} (P : A -> bool) (l : list A) :
  (forall x, In x l -> P x = true) -> List.filter P l = l.
Proof.
  induction l as [|a l IH]; intros H; simpl; [reflexivity|].
  rewrite (H a) by now left. f_equal. apply IH. intros x Hx. apply H. now right.
Qed.

(** X1. The filter of XNXX is idempotent: filtering its own output
    changes nothing. *)
Theorem xnxx_filter_idempotent (candidates : list source) :
  XNXX.unique_sources (XNXX.unique_sources candidates) = XNXX.unique_sources candidates.
Proof.
  unfold XNXX.unique_sources.
  rewrite (xnxx_fold candidates [] ∅ [] same_urls_empty). simpl.
  set (kept := first_occurrences []
                 (List.filter (fun s => is_media_candidate (url s)) candidates)).
  rewrite (xnxx_fold kept [] ∅ [] same_urls_empty). simpl.
  rewrite filter_all_kept.
  - apply first_occurrences_fixed; [apply first_occurrences_NoDup | reflexivity].
  - intros c Hc. apply first_occurrences_incl in Hc. now apply filter_In in Hc.
Qed.

(** X2. The final de-duplication of xHamster keeps the order and the
    first candidate, loses no URL, and is idempotent. *)
Theorem xhamster_dedup_keeps_urls (sources : list source) :
  sublist (XHamster.dedup sources) sources /\
  (forall u, In u (map url (XHamster.dedup sources)) <-> In u (map url sources)) /\
  (forall a rest, exists rest', XHamster.dedup (a :: rest) = a :: rest') /\
  XHamster.dedup (XHamster.dedup sources) = XHamster.dedup sources.
Proof.
  rewrite !xhamster_dedup_spec. split; [apply first_occurrences_sublist|].
  split; [|split].
  - intros u. rewrite first_occurrences_urls. simpl. tauto.
  - intros a rest. rewrite xhamster_dedup_spec. simpl. eauto.
  - apply first_occurrences_fixed; [apply first_occurrences_NoDup | reflexivity].
Qed.

End Deduplication.

Section Assembly.

Variable extract_metadata_from_url : string -> metadata.
Variable json_loads : string -> res pyval.
Variable select_best_source : list source -> string -> bool -> bool -> option source.
Variable determine_recorder_id : string -> string.
Variable fetch_with_fallback : string -> string -> fetched.
Variable ld_json_scripts : string -> list string.
Variable video_source_tags : string -> list XNXX.source_tag.
Variable urljoin : string -> string -> string.
Variable _is_template_url : string -> bool.
Variable _resolve_template_url : string -> string -> option string.

Let xvideos := XVideos.resolve_url extract_metadata_from_url json_loads
                 select_best_source determine_recorder_id fetch_with_fallback.
Let xnxx := XNXX.resolve_url extract_metadata_from_url json_loads
              select_best_source determine_recorder_id fetch_with_fallback
              ld_json_scripts video_source_tags urljoin.
Let xhamster := XHamster.resolve_url extract_metadata_from_url json_loads
                  select_best_source determine_recorder_id fetch_with_fallback
                  _is_template_url _resolve_template_url.

Lemma update_result_other base u sess ff rid k :
  ~ In k result_keys -> update_result base u sess ff rid !! k = base !! k.
Proof.
  intros Hk. unfold update_result.
  rewrite !lookup_insert_ne; [reflexivity| | | |];
    intros <-; apply Hk; simpl; tauto.
Qed.

Lemma update_result_fields base u sess ff rid :
  update_result base u sess ff rid !! "resolved_url" = Some (RStr u) /\
  update_result base u sess ff rid !! "session" = Some (RSession sess) /\
  update_result base u sess ff rid !! "ffmpeg_headers" = Some (RHeaders ff) /\
  update_result base u sess ff rid !! "recorder_id" = Some (RStr rid).
Proof.
  unfold update_result. repeat split.
  - rewrite !lookup_insert_ne by discriminate. apply lookup_insert_eq.
  - rewrite !lookup_insert_ne by discriminate. apply lookup_insert_eq.
  - rewrite lookup_insert_ne by discriminate. apply lookup_insert_eq.
  - apply lookup_insert_eq.
Qed.

(** The successful returns of the three resolvers. *)
Lemma xvideos_success self r :
  xvideos self = Ret (Some r) ->
  let f := fetch_with_fallback (self_url self) "https://www.xvideos.com" in
  exists html sources,
    page f = Some html /\ html <> "" /\
    XVideos._extract_sources extract_metadata_from_url json_loads html = sources /\
    sources <> [] /\
    let u := chosen_url self
               (select_best_source sources (self_quality self) true (self_av1 self)) in
    r = update_result (self_resolve_result self) u (session f) (ffmpeg_headers f)
          (determine_recorder_id u).
Proof.
  subst xvideos. unfold XVideos.resolve_url, XVideos.resolve_body. cbn zeta.
  set (f := fetch_with_fallback (self_url self) "https://www.xvideos.com").
  destruct (page f) as [html|] eqn:Hp; cbn [no_text default]; [|discriminate].
  destruct (String.eqb html "") eqn:Hne; [discriminate|]. cbn [id].
  apply String.eqb_neq in Hne.
  destruct (XVideos._extract_sources _ _ html) as [|c l] eqn:E; [discriminate|].
  cbn. intros [= <-]. exists html, (c :: l). repeat split; auto; discriminate.
Qed.

Lemma xnxx_success self r :
  xnxx self = Ret (Some r) ->
  let f := fetch_with_fallback (self_url self) "https://www.xnxx.com" in
  exists html sources,
    page f = Some html /\ html <> "" /\
    XNXX.collect extract_metadata_from_url json_loads ld_json_scripts
      video_source_tags urljoin (self_url self) html = Ret sources /\
    XNXX.unique_sources sources <> [] /\
    let u := chosen_url self
               (select_best_source (XNXX.unique_sources sources)
                  (self_quality self) true (self_av1 self)) in
    r = update_result (self_resolve_result self) u (session f) (ffmpeg_headers f)
          (determine_recorder_id u).
Proof.
  subst xnxx. unfold XNXX.resolve_url, XNXX.resolve_body. cbn zeta.
  set (f := fetch_with_fallback (self_url self) "https://www.xnxx.com").
  destruct (page f) as [html|] eqn:Hp; cbn [no_text default]; [|discriminate].
  destruct (String.eqb html "") eqn:Hne; [discriminate|]. cbn [id].
  apply String.eqb_neq in Hne.
  destruct (XNXX.collect _ _ _ _ _ _ html) as [sources|e] eqn:Hc; cbn [bind];
    [|discriminate].
  destruct (XNXX.unique_sources sources) as [|c l] eqn:E; [discriminate|].
  cbn. intros [= <-]. exists html, sources. rewrite E. repeat split; auto; discriminate.
Qed.

Lemma xhamster_success self r :
  xhamster self = Ret (Some r) ->
  let f := fetch_with_fallback (self_url self) "https://xhamster.com" in
  exists html sources,
    page f = Some html /\ html <> "" /\
    XHamster._parse_html_for_sources extract_metadata_from_url json_loads html
      = Ret (Some sources) /\
    sources <> [] /\
    let u := XHamster.template_step _is_template_url _resolve_template_url
               (chosen_url self
                  (select_best_source sources (self_quality self) true (self_av1 self)))
               (self_quality self) in
    r = update_result (self_resolve_result self) u
          (XHamster.with_cdn_headers (session f)) (ffmpeg_headers f)
          (determine_recorder_id u).
Proof.
  subst xhamster. unfold XHamster.resolve_url. cbn zeta.
  set (f := fetch_with_fallback (self_url self) "https://xhamster.com").
  destruct (page f) as [html|] eqn:Hp; cbn [no_text default]; [|discriminate].
  destruct (String.eqb html "") eqn:Hne; [discriminate|]. cbn [id].
  apply String.eqb_neq in Hne.
  destruct (XHamster._parse_html_for_sources _ _ html) as [[[|c l]|]|e] eqn:Hc;
    cbn [bind]; try discriminate.
  intros [= <-]. exists html, (c :: l). repeat split; auto; discriminate.
Qed.

(** X3. A result returned by the resolver of XVideos or of XNXX comes
    from a fetched page with text. The list handed to the ranker is the
    one extracted from that page ([_extract_sources] for XVideos, the
    filtered collection for XNXX) and is not empty. The result carries, as
    resolved_url, the URL of the ranker's winner on that list, or the page
    URL when there is no winner; its recorder_id is computed from that
    same URL; session and ffmpeg_headers are those of the fetch; every
    other key of the resolver's result dictionary is left as it was. *)
Theorem resolved_result_fields (self : resolver) (r : gmap string rval) :
  (xvideos self = Ret (Some r) ->
   let f := fetch_with_fallback (self_url self) "https://www.xvideos.com" in
   exists html,
     page f = Some html /\ html <> "" /\
     let sources := XVideos._extract_sources extract_metadata_from_url json_loads html in
     let u := chosen_url self
                (select_best_source sources (self_quality self) true (self_av1 self)) in
     sources <> [] /\
     r !! "resolved_url" = Some (RStr u) /\
     r !! "recorder_id" = Some (RStr (determine_recorder_id u)) /\
     r !! "session" = Some (RSession (session f)) /\
     r !! "ffmpeg_headers" = Some (RHeaders (ffmpeg_headers f)) /\
     forall k, ~ In k result_keys -> r !! k = self_resolve_result self !! k) /\
  (xnxx self = Ret (Some r) ->
   let f := fetch_with_fallback (self_url self) "https://www.xnxx.com" in
   exists html collected,
     page f = Some html /\ html <> "" /\
     XNXX.collect extract_metadata_from_url json_loads ld_json_scripts
       video_source_tags urljoin (self_url self) html = Ret collected /\
     let sources := XNXX.unique_sources collected in
     let u := chosen_url self
                (select_best_source sources (self_quality self) true (self_av1 self)) in
     sources <> [] /\
     r !! "resolved_url" = Some (RStr u) /\
     r !! "recorder_id" = Some (RStr (determine_recorder_id u)) /\
     r !! "session" = Some (RSession (session f)) /\
     r !! "ffmpeg_headers" = Some (RHeaders (ffmpeg_headers f)) /\
     forall k, ~ In k result_keys -> r !! k = self_resolve_result self !! k).
Proof.
  split; intros H.
  - apply xvideos_success in H as (html & sources & Hp & Hne & <- & Hs & ->).
    cbn zeta. exists html. split; [exact Hp|]. split; [exact Hne|].
    split; [exact Hs|].
    set (sources := XVideos._extract_sources _ _ html).
    set (f := fetch_with_fallback (self_url self) "https://www.xvideos.com").
    set (u := chosen_url self _).
    destruct (update_result_fields (self_resolve_result self) u (session f)
                (ffmpeg_headers f) (determine_recorder_id u)) as (H1 & H2 & H3 & H4).
    repeat split; auto. intros k Hk. now apply update_result_other.
  - apply xnxx_success in H as (html & collected & Hp & Hne & Hc & Hs & ->).
    cbn zeta. exists html, collected.
    split; [exact Hp|]. split; [exact Hne|]. split; [exact Hc|]. split; [exact Hs|].
    set (f := fetch_with_fallback (self_url self) "https://www.xnxx.com").
    set (u := chosen_url self _).
    destruct (update_result_fields (self_resolve_result self) u (session f)
                (ffmpeg_headers f) (determine_recorder_id u)) as (H1 & H2 & H3 & H4).
    repeat split; auto. intros k Hk. now apply update_result_other.
Qed.

Lemma with_cdn_headers_lookup (sess : option headers) :
  match sess, XHamster.with_cdn_headers sess with
  | None, None => True
  | Some h, Some h' =>
      h' !! "Referer" = Some "https://xhamster.com/" /\
      h' !! "Origin" = Some "https://xhamster.com" /\
      forall k, lower k <> "referer" -> lower k <> "origin" -> h' !! k = h !! k
  | _, _ => False
  end.
Proof.
  destruct sess as [h|]; simpl; [|exact I]. split; [|split].
  - rewrite lookup_insert_ne by discriminate. apply lookup_insert_eq.
  - apply lookup_insert_eq.
  - intros k Hr Ho.
    rewrite !lookup_insert_ne; [reflexivity | |];
      intros <-; [apply Hr | apply Ho]; reflexivity.
Qed.

(** X4. A result returned by the resolver of xHamster comes from a fetched
    page with text on which [_parse_html_for_sources] returned a non-empty
    list; that list is the one handed to the ranker. The result carries,
    as resolved_url, the winner's URL (or the page URL when there is no
    winner) after the template step, and a recorder_id computed from that
    final URL. When the fetch left a session, the session of the result
    has Referer and Origin set to the xHamster values, and every header
    whose name is neither of the two, whatever the case of its letters,
    is unchanged; ffmpeg_headers are those of the fetch; every other key
    of the result dictionary is left as it was. *)
Theorem xhamster_result_fields (self : resolver) (r : gmap string rval) :
  xhamster self = Ret (Some r) ->
  let f := fetch_with_fallback (self_url self) "https://xhamster.com" in
  exists html sources,
    page f = Some html /\ html <> "" /\
    XHamster._parse_html_for_sources extract_metadata_from_url json_loads html
      = Ret (Some sources) /\
    sources <> [] /\
    let u := XHamster.template_step _is_template_url _resolve_template_url
               (chosen_url self
                  (select_best_source sources (self_quality self) true (self_av1 self)))
               (self_quality self) in
    r !! "resolved_url" = Some (RStr u) /\
    r !! "recorder_id" = Some (RStr (determine_recorder_id u)) /\
    r !! "ffmpeg_headers" = Some (RHeaders (ffmpeg_headers f)) /\
    (forall k, ~ In k result_keys -> r !! k = self_resolve_result self !! k) /\
    match session f with
    | None => r !! "session" = Some (RSession None)
    | Some h =>
        exists h', r !! "session" = Some (RSession (Some h')) /\
                   h' !! "Referer" = Some "https://xhamster.com/" /\
                   h' !! "Origin" = Some "https://xhamster.com" /\
                   forall k, lower k <> "referer" -> lower k <> "origin" ->
                             h' !! k = h !! k
    end.
Proof.
  intros H. apply xhamster_success in H as (html & sources & Hp & Hne & Hc & Hs & ->).
  cbn zeta. exists html, sources.
  split; [exact Hp|]. split; [exact Hne|]. split; [exact Hc|]. split; [exact Hs|].
  set (f := fetch_with_fallback (self_url self) "https://xhamster.com").
  set (u := XHamster.template_step _ _ _ _).
  destruct (update_result_fields (self_resolve_result self) u
              (XHamster.with_cdn_headers (session f)) (ffmpeg_headers f)
              (determine_recorder_id u)) as (H1 & H2 & H3 & H4).
  split; [exact H1|]. split; [exact H4|]. split; [exact H3|].
  split; [intros k Hk; now apply update_result_other|].
  pose proof (with_cdn_headers_lookup (session f)) as Hh.
  destruct (session f) as [h|]; [|exact H2].
  destruct (XHamster.with_cdn_headers (Some h)) as [h'|] eqn:E; [|destruct Hh].
  exists h'. split; [exact H2 | exact Hh].
Qed.

(** X5. The paths on which the three resolvers return nothing. XVideos and
    XNXX always return (the handler of [resolve_url] catches every
    exception), and return [None] when the fetch gave no text; so does
    XVideos when the page has neither a setter call nor a JSON-LD block,
    and XNXX when the collection completes and the filter keeps nothing.
    xHamster returns [None] exactly when the fetch gave no text or the
    parser returned [None] or an empty list; an exception raised by the
    parser on the fetched text is raised by [resolve_url]. *)
Theorem resolvers_return_none (self : resolver) :
  (let f := fetch_with_fallback (self_url self) "https://www.xvideos.com" in
   (exists o, xvideos self = Ret o) /\
   (no_text (page f) = true -> xvideos self = Ret None) /\
   (forall html,
      page f = Some html ->
      XVideos.player_sources extract_metadata_from_url html = [] ->
      Re.search false XVideos.json_ld_pattern html = None ->
      xvideos self = Ret None)) /\
  (let f := fetch_with_fallback (self_url self) "https://www.xnxx.com" in
   (exists o, xnxx self = Ret o) /\
   (no_text (page f) = true -> xnxx self = Ret None) /\
   (forall html collected,
      page f = Some html ->
      XNXX.collect extract_metadata_from_url json_loads ld_json_scripts
        video_source_tags urljoin (self_url self) html = Ret collected ->
      XNXX.unique_sources collected = [] ->
      xnxx self = Ret None)) /\
  (let f := fetch_with_fallback (self_url self) "https://xhamster.com" in
   let parsed :=
     XHamster._parse_html_for_sources extract_metadata_from_url json_loads
       (default "" (page f)) in
   (xhamster self = Ret None <->
    no_text (page f) = true \/ parsed = Ret None \/ parsed = Ret (Some [])) /\
   (forall e, no_text (page f) = false -> parsed = Raise e ->
              xhamster self = Raise e)).
Proof.
  split; [|split]; cbn zeta.
  - subst xvideos. unfold XVideos.resolve_url, XVideos.resolve_body, try_except.
    split; [|split].
    + destruct (no_text _); [eauto|].
      destruct (XVideos._extract_sources _ _ _) as [|c l]; eauto.
    + intros ->. reflexivity.
    + intros html -> Hp Hj. cbn [default id].
      destruct (no_text (Some html)); [reflexivity|].
      unfold XVideos._extract_sources, XVideos.extract_body.
      rewrite Hj, Hp. reflexivity.
  - subst xnxx. unfold XNXX.resolve_url, XNXX.resolve_body, try_except.
    split; [|split].
    + destruct (no_text _); [eauto|].
      destruct (XNXX.collect _ _ _ _ _ _ _) as [sources|e]; cbn [bind]; [|eauto].
      destruct (XNXX.unique_sources sources) as [|c l]; eauto.
    + intros ->. reflexivity.
    + intros html collected -> Hc Hu. cbn [default id].
      destruct (no_text (Some html)); [reflexivity|].
      rewrite Hc. cbn [bind]. rewrite Hu. reflexivity.
  - subst xhamster. unfold XHamster.resolve_url.
    destruct (no_text _).
    + split; [tauto|]. intros e; discriminate.
    + destruct (XHamster._parse_html_for_sources _ _ _) as [[[|c l]|]|e0]; cbn [bind].
      * split; [tauto|]. intros e _; discriminate.
      * split; [split; [discriminate | intros [?|[?|?]]; discriminate]|].
        intros e _; discriminate.
      * split; [tauto|]. intros e _; discriminate.
      * split; [split; [discriminate | intros [?|[?|?]]; discriminate]|].
        intros e _ [= ->]. reflexivity.
Qed.

End Assembly.

Section Qualities.

Variable extract_metadata_from_url : string -> metadata.
Variable json_loads : string -> res pyval.

Lemma or_default_truthy md dflt :
  dflt <> "" -> truthy (md_quality (or_default md dflt)) = true.
Proof.
  intros Hd. unfold or_default. destruct (truthy (md_quality md)) eqn:E; [exact E|].
  simpl. apply String.eqb_neq in Hd. now rewrite Hd.
Qed.

Lemma final_fallback_truthy md : truthy (md_quality (final_fallback md)) = true.
Proof. unfold final_fallback. now destruct (String.eqb (md_format md) "m3u8"). Qed.

Lemma xvideos_setter_truthy pat dflt html c :
  dflt <> "" ->
  In c (XVideos.setter_sources extract_metadata_from_url pat dflt html) ->
  truthy (quality c) = true.
Proof.
  intros Hd. unfold XVideos.setter_sources.
  destruct (Re.search false pat html) as [g|]; [|intros []].
  destruct (negb _); [|intros []]. intros [<-|[]]. simpl.
  now apply or_default_truthy.
Qed.

Lemma xvideos_player_truthy html c :
  In c (XVideos.player_sources extract_metadata_from_url html) ->
  truthy (quality c) = true.
Proof.
  unfold XVideos.player_sources. rewrite !in_app_iff.
  intros [H|[H|H]]; (eapply xvideos_setter_truthy; [|exact H]; discriminate).
Qed.

Lemma xvideos_extract_body_truthy html sources c :
  XVideos.extract_body extract_metadata_from_url json_loads html = Ret sources ->
  In c sources -> truthy (quality c) = true.
Proof.
  unfold XVideos.extract_body.
  destruct (Re.search false XVideos.json_ld_pattern html) as [g|].
  - unfold XVideos.json_ld_sources, try_except.
    destruct (json_loads (Re.group 1 g)) as [json_ld|e]; cbn [bind].
    + destruct (py_contains "contentUrl" json_ld) as [[|]|e]; cbn [bind].
      * destruct (py_getitem json_ld "contentUrl") as [content_url|e]; cbn [bind].
        -- destruct (existsb _ _).
           ++ intros [= <-]. apply xvideos_player_truthy.
           ++ destruct (as_url content_url) as [u|e]; cbn [bind].
              ** intros [= <-]. rewrite in_app_iff.
                 intros [H|[<-|[]]]; [now apply (xvideos_player_truthy html)|].
                 simpl. now apply or_default_truthy.
              ** destruct (is_JSONDecodeError e); [|discriminate].
                 intros [= <-]. apply xvideos_player_truthy.
        -- destruct (is_JSONDecodeError e); [|discriminate].
           intros [= <-]. apply xvideos_player_truthy.
      * intros [= <-]. apply xvideos_player_truthy.
      * destruct (is_JSONDecodeError e); [|discriminate].
        intros [= <-]. apply xvideos_player_truthy.
    + destruct (is_JSONDecodeError e); [|discriminate].
      intros [= <-]. apply xvideos_player_truthy.
  - intros [= <-]. apply xvideos_player_truthy.
Qed.

Lemma xnxx_js_candidate_truthy dflt mtch c :
  dflt <> "" ->
  In c (XNXX.js_candidate extract_metadata_from_url dflt mtch) ->
  truthy (quality c) = true.
Proof.
  intros Hd. unfold XNXX.js_candidate. destruct (_ && _); [|intros []].
  intros [<-|[]]. simpl.
  destruct (truthy (md_quality (extract_metadata_from_url _))) eqn:E; simpl.
  - exact E.
  - destruct (negb (String.eqb dflt "Unknown")); simpl.
    + apply String.eqb_neq in Hd. now rewrite Hd.
    + apply final_fallback_truthy.
Qed.

Lemma xnxx_js_truthy html c :
  In c (XNXX.js_sources extract_metadata_from_url html) -> truthy (quality c) = true.
Proof.
  unfold XNXX.js_sources, XNXX.js_pattern_sources. rewrite in_flat_map.
  intros ([pat dflt] & Hp & Hc). rewrite in_flat_map in Hc.
  destruct Hc as (g & _ & Hc). simpl in Hc.
  eapply xnxx_js_candidate_truthy; [|exact Hc].
  unfold XNXX.js_patterns in Hp. simpl in Hp.
  repeat (destruct Hp as [[= _ <-]|Hp]; [discriminate|]). destruct Hp.
Qed.

Lemma xnxx_json_ld_step_truthy sources text sources' :
  (forall c, In c sources -> truthy (quality c) = true) ->
  XNXX.json_ld_step extract_metadata_from_url json_loads sources text = Ret sources' ->
  forall c, In c sources' -> truthy (quality c) = true.
Proof.
  intros Hs. unfold XNXX.json_ld_step, try_except.
  destruct (json_loads text) as [data|e]; cbn [bind].
  - destruct data as [| | | | | |kv]; try (intros [= <-]; exact Hs).
    destruct (dict_get "contentUrl" kv) as [v|]; [|intros [= <-]; exact Hs].
    destruct (as_url v) as [u|e]; cbn [bind].
    + intros [= <-] c. rewrite in_app_iff. intros [H|[<-|[]]]; [now apply Hs|].
      simpl. now apply or_default_truthy.
    + destruct (_ || _); [intros [= <-]; exact Hs | discriminate].
  - destruct (_ || _); [intros [= <-]; exact Hs | discriminate].
Qed.

Lemma xnxx_json_ld_truthy texts : forall sources sources',
  (forall c, In c sources -> truthy (quality c) = true) ->
  XNXX.json_ld_sources extract_metadata_from_url json_loads sources texts = Ret sources' ->
  forall c, In c sources' -> truthy (quality c) = true.
Proof.
  induction texts as [|t texts IH]; intros sources sources' Hs; simpl.
  - intros [= <-]. exact Hs.
  - destruct (XNXX.json_ld_step _ _ sources t) as [s1|e] eqn:E; cbn [bind];
      [|discriminate].
    apply IH. now apply (xnxx_json_ld_step_truthy sources t s1).
Qed.

Lemma xnxx_dom_truthy urljoin page_url t c :
  In c (XNXX.dom_candidate extract_metadata_from_url urljoin page_url t) ->
  truthy (quality c) = true.
Proof.
  unfold XNXX.dom_candidate. destruct (XNXX.attr_src t) as [src|]; [|intros []].
  destruct (String.eqb src ""); [intros []|].
  cbv zeta.
  match goal with
  | |- context [String.eqb ?q ""] =>
      lazymatch q with
      | (if _ then "adaptive" else _) => set (sq := q)
      end
  end.
  intros [<-|[]]. simpl.
  destruct (String.eqb sq "") eqn:E; simpl.
  - destruct (truthy (md_quality (extract_metadata_from_url _))) eqn:Hq; simpl.
    + exact Hq.
    + apply final_fallback_truthy.
  - now rewrite E.
Qed.

(** X6. No candidate collected by XVideos or by XNXX has an empty quality:
    each carries the quality inferred from its URL, the one of its element
    label, or a default. *)
Theorem collected_quality_not_empty
    (ld_json_scripts : string -> list string)
    (video_source_tags : string -> list XNXX.source_tag)
    (urljoin : string -> string -> string) (page_url html : string) (c : source) :
  (In c (XVideos._extract_sources extract_metadata_from_url json_loads html) ->
   truthy (quality c) = true) /\
  (forall sources,
     XNXX.collect extract_metadata_from_url json_loads ld_json_scripts
       video_source_tags urljoin page_url html = Ret sources ->
     In c sources -> truthy (quality c) = true).
Proof.
  split.
  - unfold XVideos._extract_sources.
    destruct (XVideos.extract_body _ _ html) as [sources|e] eqn:E; [|intros []].
    apply (xvideos_extract_body_truthy html sources c E).
  - intros sources. unfold XNXX.collect.
    destruct (XNXX.json_ld_sources _ _ _ _) as [s1|e] eqn:E; cbn [bind]; [|discriminate].
    intros [= <-]. rewrite in_app_iff. intros [H|H].
    + revert c H. apply (xnxx_json_ld_truthy _ _ _ (xnxx_js_truthy html) E).
    + rewrite in_flat_map in H. destruct H as (t & _ & H).
      now apply xnxx_dom_truthy in H.
Qed.

End Qualities.

Section XHamsterMethods.

Variable extract_metadata_from_url : string -> metadata.
Variable json_loads : string -> res pyval.

Lemma known_spec sources u :
  XHamster.known sources u = false -> ~ In u (map url sources).
Proof.
  unfold XHamster.known. intros H Hin. apply in_map_iff in Hin as (c & <- & Hc).
  assert (existsb (fun s => String.eqb (url s) (url c)) sources = true).
  { apply existsb_exists. exists c. split; [exact Hc | apply String.eqb_refl]. }
  congruence.
Qed.

Lemma NoDup_snoc_url sources c :
  NoDup (map url sources) -> ~ In (url c) (map url sources) ->
  NoDup (map url (sources ++ [c])).
Proof.
  intros Hnd Hc. rewrite map_app. apply NoDup_app. split; [exact Hnd|].
  split; [|apply NoDup_singleton].
  intros u Hu Hk. apply list_elem_of_singleton in Hk. subst u.
  apply Hc. now apply list_elem_of_In.
Qed.

Lemma method3_step_appends :
  appends_fresh (XHamster.method3_step extract_metadata_from_url).
Proof.
  intros sources u. unfold XHamster.method3_step.
  destruct (negb (String.eqb u "")); cbn [andb]; [|now left].
  destruct (XHamster.known sources u) eqn:K; cbn [negb]; [now left|].
  destruct (endswith (lower u) ".m3u8"); [now left|].
  destruct (str_in "thumb" (lower u)); [now left|].
  destruct (any_in XHamster.preview_indicators (lower u)); [now left|].
  right. eexists. split; [reflexivity|]. simpl. now apply known_spec.
Qed.

Lemma method4_step_appends :
  appends_fresh (XHamster.method4_step extract_metadata_from_url).
Proof.
  intros sources u. unfold XHamster.method4_step.
  destruct (negb (String.eqb u "")); cbn [andb]; [|now left].
  destruct (XHamster.known sources u) eqn:K; cbn [negb]; [now left|].
  destruct (str_in "thumb" (lower u)); [now left|].
  destruct (any_in XHamster.preview_indicators (lower u)); [now left|].
  right. eexists. split; [reflexivity|]. simpl. now apply known_spec.
Qed.

Lemma fold_appends step :
  appends_fresh step ->
  forall matches sources,
    (exists extra, fold_left step matches sources = sources ++ extra) /\
    (NoDup (map url sources) -> NoDup (map url (fold_left step matches sources))).
Proof.
  intros Hstep matches. induction matches as [|u matches IH]; intros sources; simpl.
  - split; [exists []; now rewrite app_nil_r | auto].
  - destruct (Hstep sources u) as [->|(c & -> & Hc)]; [apply IH|].
    destruct (IH (sources ++ [c])) as [[extra He] Hnd]. split.
    + exists (c :: extra). now rewrite He, <- app_assoc.
    + intros H. apply Hnd. now apply NoDup_snoc_url.
Qed.

Lemma method2_source_appends sources entry :
  exists extra,
    fst (XHamster.method2_source extract_metadata_from_url sources entry)
    = sources ++ extra.
Proof.
  unfold XHamster.method2_source.
  destruct entry as [| | | | | |kv]; try (exists []; simpl; now rewrite app_nil_r).
  destruct (dict_get "url" kv) as [[| | | |raw| |]|];
    try (exists []; simpl; now rewrite app_nil_r).
  eexists. reflexivity.
Qed.

Lemma method2_entries_appends entries : forall sources,
  exists extra,
    fst (XHamster.method2_entries extract_metadata_from_url sources entries)
    = sources ++ extra.
Proof.
  induction entries as [|e entries IH]; intros sources; simpl.
  - exists []. now rewrite app_nil_r.
  - destruct (method2_source_appends sources e) as [x1 H1].
    destruct (XHamster.method2_source _ sources e) as [s1 [[]|x]]; simpl in H1; subst s1.
    + destruct (IH (sources ++ x1)) as [x2 H2]. exists (x1 ++ x2).
      now rewrite H2, <- app_assoc.
    + now exists x1.
Qed.

Lemma player_init_appends sources text :
  exists extra,
    fst (XHamster.player_init extract_metadata_from_url json_loads sources text)
    = sources ++ extra.
Proof.
  unfold XHamster.player_init.
  destruct (bind _ _) as [source_list|x]; [|exists []; simpl; now rewrite app_nil_r].
  destruct (truthy source_list); [|exists []; simpl; now rewrite app_nil_r].
  destruct (XHamster.py_iter source_list) as [entries|x];
    [|exists []; simpl; now rewrite app_nil_r].
  destruct (method2_entries_appends entries sources) as [extra H]. exists extra.
  destruct (XHamster.method2_entries _ sources entries) as [s1 [[]|x]]; exact H.
Qed.

Lemma method2_appends html patterns : forall sources sources',
  XHamster.method2 extract_metadata_from_url json_loads patterns html sources
    = Ret sources' ->
  exists extra, sources' = sources ++ extra.
Proof.
  induction patterns as [|p ps IH]; intros sources sources'; simpl.
  - intros [= <-]. exists []. now rewrite app_nil_r.
  - destruct (Re.search false p html) as [g|]; [|apply IH].
    destruct (player_init_appends sources (Re.group 1 g)) as [x1 H1].
    destruct (XHamster.player_init _ _ sources (Re.group 1 g)) as [s1 [[|]|x]];
      simpl in H1; subst s1.
    + intros [= <-]. now exists x1.
    + intros H. apply IH in H as [x2 ->].
      exists (x1 ++ x2). now rewrite <- app_assoc.
    + destruct (_ || _); [|discriminate]. intros H. apply IH in H as [x2 ->].
      exists (x1 ++ x2). now rewrite <- app_assoc.
Qed.

(** X7. The raw scans of xHamster (methods 3 and 4) only append to the
    candidates collected so far and never append a URL that is already
    collected, so they keep a duplicate-free list duplicate-free and the
    final de-duplication then changes nothing. The candidates of the url/label strategy stay at the front of the
    collection: when that strategy finds a candidate, its first one is the
    first of the list returned by [_parse_html_for_sources]. *)
Theorem xhamster_methods_append (html : string) (sources : list source) :
  (exists extra,
     XHamster.method3 extract_metadata_from_url html sources = sources ++ extra) /\
  (exists extra,
     XHamster.method4 extract_metadata_from_url html sources = sources ++ extra) /\
  (NoDup (map url sources) ->
   NoDup (map url (XHamster.method4 extract_metadata_from_url html
                     (XHamster.method3 extract_metadata_from_url html sources)))) /\
  (NoDup (map url sources) ->
   XHamster.dedup (XHamster.method4 extract_metadata_from_url html
                     (XHamster.method3 extract_metadata_from_url html sources))
   = XHamster.method4 extract_metadata_from_url html
       (XHamster.method3 extract_metadata_from_url html sources)) /\
  (forall a rest parsed,
     XHamster.method1 extract_metadata_from_url html = a :: rest ->
     XHamster._parse_html_for_sources extract_metadata_from_url json_loads html
       = Ret parsed ->
     exists rest', parsed = Some (a :: rest')).
Proof.
  split; [apply fold_appends, method3_step_appends|].
  split; [apply fold_appends, method4_step_appends|].
  assert (Hnd : NoDup (map url sources) ->
                NoDup (map url (XHamster.method4 extract_metadata_from_url html
                         (XHamster.method3 extract_metadata_from_url html sources)))).
  { intros H. apply fold_appends; [apply method4_step_appends|].
    now apply fold_appends; [apply method3_step_appends|]. }
  split; [exact Hnd|]. split.
  - intros H. rewrite xhamster_dedup_spec.
    apply first_occurrences_fixed; [now apply Hnd | reflexivity].
  - intros a rest parsed H1. unfold XHamster._parse_html_for_sources.
    destruct (String.eqb html "") eqn:Hh.
    { apply String.eqb_eq in Hh. subst html. vm_compute in H1. discriminate. }
    unfold XHamster.collect. rewrite H1.
    destruct (XHamster.method2 _ _ _ html (a :: rest)) as [s2|e] eqn:E2; cbn [bind];
      [|discriminate].
    apply method2_appends in E2 as [x2 ->].
    destruct (fold_appends _ method3_step_appends
                (map (Re.group 1) (Re.findall true XHamster.mp4_pattern html))
                ((a :: rest) ++ x2)) as [[x3 H3] _].
    fold (XHamster.method3 extract_metadata_from_url html ((a :: rest) ++ x2)) in H3.
    rewrite H3.
    destruct (fold_appends _ method4_step_appends
                (flat_map (fun pattern => map (Re.group 1) (Re.findall true pattern html))
                   XHamster.hls_patterns)
                (((a :: rest) ++ x2) ++ x3)) as [[x4 H4] _].
    fold (XHamster.method4 extract_metadata_from_url html (((a :: rest) ++ x2) ++ x3))
      in H4.
    rewrite H4. simpl. intros [= <-].
    rewrite xhamster_dedup_spec. simpl. eauto.
Qed.

End XHamsterMethods.

Section ErrorPaths.

Variable extract_metadata_from_url : string -> metadata.
Variable json_loads : string -> res pyval.

(** X8. The JSON-LD step of XVideos. Without a JSON-LD block, or when the
    block does not decode, the setter candidates are returned unchanged.
    When the block decodes to [None], a boolean or a number, to a list
    that holds the string contentUrl or to a string that contains it, the
    whole list is emptied, setter candidates included. For an object, a
    content URL that is already collected is not added again. At most one
    candidate is added to the at most three setter candidates. *)
Theorem xvideos_json_ld_step (html : string) :
  let extract := XVideos._extract_sources extract_metadata_from_url json_loads in
  let players := XVideos.player_sources extract_metadata_from_url html in
  (Re.search false XVideos.json_ld_pattern html = None -> extract html = players) /\
  (forall g,
     Re.search false XVideos.json_ld_pattern html = Some g ->
     (json_loads (Re.group 1 g) = Raise JSONDecodeError -> extract html = players) /\
     (forall v, json_loads (Re.group 1 g) = Ret v ->
        match v with
        | PNone | PBool _ | PInt _ | PFloat _ _ => extract html = []
        | PDict kv =>
            forall u, dict_get "contentUrl" kv = Some (PStr u) ->
              extract html =
                if existsb (fun s => String.eqb (url s) u) players then players
                else players ++
                     [mk_source u (or_default (extract_metadata_from_url u) "720p")]
        | PList l =>
            extract html =
              if existsb (fun x => match x with
                                   | PStr s => String.eqb s "contentUrl"
                                   | _ => false
                                   end) l
              then [] else players
        | PStr s => extract html = if str_in "contentUrl" s then [] else players
        end)) /\
  length (extract html) <= 4.
Proof.
  cbn zeta. unfold XVideos._extract_sources, XVideos.extract_body.
  split; [intros ->; reflexivity|]. split.
  - intros g ->. unfold XVideos.json_ld_sources, try_except. split.
    + intros ->. reflexivity.
    + intros v ->. cbn [bind].
      destruct v as [| | | |s|l|kv]; try reflexivity.
      * simpl. destruct (str_in "contentUrl" s); reflexivity.
      * simpl. destruct (existsb _ l); reflexivity.
      * intros u Hu. simpl. rewrite Hu. cbn [bind].
        destruct (existsb _ _); reflexivity.
  - assert (Hp : length (XVideos.player_sources extract_metadata_from_url html) <= 3).
    { unfold XVideos.player_sources, XVideos.setter_sources.
      rewrite !length_app.
      repeat match goal with
             | |- context [match ?e with Some _ => _ | None => _ end] => destruct e
             | |- context [if ?b then _ else _] => destruct b
             end; simpl; lia. }
    destruct (Re.search false XVideos.json_ld_pattern html) as [g|]; [|simpl; lia].
    unfold XVideos.json_ld_sources, try_except.
    destruct (json_loads (Re.group 1 g)) as [json_ld|e]; cbn [bind].
    + destruct (py_contains "contentUrl" json_ld) as [[|]|e]; cbn [bind].
      * destruct (py_getitem json_ld "contentUrl") as [content_url|e]; cbn [bind].
        -- destruct (existsb _ _); [lia|].
           destruct (as_url content_url) as [u|e]; cbn [bind].
           ++ rewrite length_app. simpl. lia.
           ++ destruct (is_JSONDecodeError e); simpl; lia.
        -- destruct (is_JSONDecodeError e); simpl; lia.
      * lia.
      * destruct (is_JSONDecodeError e); simpl; lia.
    + destruct (is_JSONDecodeError e); simpl; lia.
Qed.

Lemma method2_source_raises sources a s1 y :
  XHamster.method2_source extract_metadata_from_url sources a = (s1, Raise y) ->
  y = AttributeError.
Proof.
  unfold XHamster.method2_source.
  destruct a as [| | | | | |kv]; try discriminate.
  destruct (dict_get "url" kv) as [[| | | |raw| |]|]; try discriminate;
    now intros [= _ <-].
Qed.

Lemma method2_entries_raises entries : forall sources s1 y,
  XHamster.method2_entries extract_metadata_from_url sources entries = (s1, Raise y) ->
  y = AttributeError.
Proof.
  induction entries as [|a entries IH]; intros sources s1 y; simpl; [discriminate|].
  destruct (XHamster.method2_source _ sources a) as [s2 [[]|z]] eqn:E.
  - apply IH.
  - intros [= _ <-]. now apply method2_source_raises in E.
Qed.

Lemma load_player_data_raises text x :
  XHamster.load_player_data json_loads text = Raise x ->
  exists t, json_loads t = Raise x.
Proof.
  unfold XHamster.load_player_data, try_except.
  destruct (json_loads text) as [v|e] eqn:E; [discriminate|].
  destruct (is_JSONDecodeError e); [eauto|]. intros [= <-]. eauto.
Qed.

Lemma player_init_raises sources text sources' x :
  XHamster.player_init extract_metadata_from_url json_loads sources text
    = (sources', Raise x) ->
  x = TypeError \/ x = AttributeError \/ exists t, json_loads t = Raise x.
Proof.
  unfold XHamster.player_init.
  destruct (XHamster.load_player_data json_loads text) as [v|e] eqn:E1; cbn [bind].
  - destruct (XHamster.source_list_of v) as [sl|e] eqn:E2.
    + destruct (truthy sl); [|discriminate].
      destruct (XHamster.py_iter sl) as [entries|e] eqn:E3.
      * destruct (XHamster.method2_entries _ sources entries) as [s1 [[]|y]] eqn:E4;
          [discriminate|].
        intros [= _ <-]. apply method2_entries_raises in E4. auto.
      * intros [= _ <-]. destruct sl; simpl in E3; try discriminate;
          injection E3 as <-; auto.
    + intros [= _ <-]. destruct v; simpl in E2; try discriminate;
        injection E2 as <-; auto.
  - intros [= _ <-]. apply load_player_data_raises in E1. auto.
Qed.

(** X9. An exception leaves [_parse_html_for_sources] of xHamster only
    from method 2: it is neither a [JSONDecodeError] nor an
    [AttributeError], and it is either the [TypeError] of a loop over a
    value that does not iterate or an exception raised by the JSON
    decoder. *)
Theorem xhamster_parser_exceptions (html : string) (x : exn) :
  XHamster._parse_html_for_sources extract_metadata_from_url json_loads html = Raise x ->
  is_JSONDecodeError x = false /\ is_AttributeError x = false /\
  (x = TypeError \/ exists t, json_loads t = Raise x).
Proof.
  unfold XHamster._parse_html_for_sources.
  destruct (String.eqb html ""); [discriminate|].
  unfold XHamster.collect.
  destruct (XHamster.method2 _ _ _ html _) as [s|e] eqn:E; cbn [bind].
  { destruct (XHamster.method4 _ html _); discriminate. }
  intros [= <-]. revert E. generalize (XHamster.method1 extract_metadata_from_url html).
  induction XHamster.player_patterns as [|p ps IH]; intros sources; simpl; [discriminate|].
  destruct (Re.search false p html) as [g|]; [|apply IH].
  destruct (XHamster.player_init _ _ sources (Re.group 1 g)) as [s1 [[|]|y]] eqn:Ei;
    [discriminate | apply IH |].
  destruct (is_JSONDecodeError y || is_AttributeError y) eqn:Ec; [apply IH|].
  intros [= <-]. apply orb_false_iff in Ec as [E1 E2]. split; [exact E1|].
  split; [exact E2|].
  apply player_init_raises in Ei as [->|[->|H]]; [now left | discriminate | now right].
Qed.

(** X10. The JSON-LD step of XNXX on one script. A script whose decoding
    raises a [ValueError] (a [JSONDecodeError] is one) or a [KeyError]
    leaves the candidates as they are; any other exception of the decoder
    leaves the step. A decoded value that is not an object, or an object
    without a content URL, leaves the candidates as they are; an object
    whose content URL is a string appends one candidate with that URL,
    with the quality inferred from it or else 480p. *)
Theorem xnxx_json_ld_errors (sources : list source) (text : string) :
  let step := XNXX.json_ld_step extract_metadata_from_url json_loads sources text in
  (forall e, json_loads text = Raise e ->
     is_ValueError e || is_KeyError e = true -> step = Ret sources) /\
  (forall e, json_loads text = Raise e ->
     is_ValueError e || is_KeyError e = false -> step = Raise e) /\
  (forall v, json_loads text = Ret v ->
     match v with
     | PDict kv =>
         match dict_get "contentUrl" kv with
         | None => step = Ret sources
         | Some (PStr u) =>
             step = Ret (sources ++
                         [mk_source u (or_default (extract_metadata_from_url u) "480p")])
         | Some _ => True
         end
     | _ => step = Ret sources
     end).
Proof.
  cbn zeta. unfold XNXX.json_ld_step, try_except. split; [|split].
  - intros e -> He. cbn [bind]. now rewrite He.
  - intros e -> He. cbn [bind]. now rewrite He.
  - intros v ->. cbn [bind]. destruct v as [| | | | | |kv]; try reflexivity.
    destruct (dict_get "contentUrl" kv) as [[| | | |u| |]|]; try exact I; reflexivity.
Qed.

End ErrorPaths.

Section UrlShapes.

Import Re ReSpec.

Variable extract_metadata_from_url : string -> metadata.

(** X11. The clean-up of the XNXX inline-script strategy (unescape, then
    upgrade of a protocol-relative URL) is idempotent. *)
Theorem xnxx_clean_url_idempotent (mtch : string) :
  XNXX.upgrade (XNXX.unescape (XNXX.upgrade (XNXX.unescape mtch)))
  = XNXX.upgrade (XNXX.unescape mtch).
Proof.
  set (t := XNXX.upgrade (XNXX.unescape mtch)).
  assert (Hb : has_char "\" t = false)
    by apply upgrade_no_backslash, xnxx_unescape_no_backslash.
  assert (Hu : XNXX.unescape t = t).
  { unfold XNXX.unescape. now rewrite !(replace_absent "\" _ _ t Hb). }
  rewrite Hu. pose proof (upgrade_not_relative (XNXX.unescape mtch)) as Hr.
  fold t in Hr. unfold XNXX.upgrade at 1. now rewrite Hr.
Qed.

Lemma replace_char_absent a new skip s :
  has_char a new = false ->
  has_char a (replace_from (String a "") new skip s) = false.
Proof.
  intros Hn. revert skip. induction s as [|c s IH]; intros skip; [reflexivity|].
  cbn [replace_from]. destruct skip as [|k]; [|apply IH].
  rewrite prefix_single. destruct (Ascii.eqb a c) eqn:E.
  - cbn. rewrite has_char_app, Hn. apply IH.
  - cbn. rewrite E. apply IH.
Qed.

(** X12. The repair applied to a player object that did not decode leaves
    no single quote in the text. *)
Theorem fix_json_no_single_quote (s : string) :
  has_char "'" (XHamster.fix_json s) = false.
Proof. unfold XHamster.fix_json. now apply replace_char_absent. Qed.

Lemma lower_append a b : lower (a +:+ b) = lower a +:+ lower b.
Proof.
  induction a as [|c a IH]; [reflexivity|].
  rewrite append_cons. simpl. now rewrite IH.
Qed.

Lemma url_char_lower d : XHamster.url_char (lower_ascii d) = XHamster.url_char d.
Proof. destruct d as [[] [] [] [] [] [] [] []]; reflexivity. Qed.

Lemma lang_Lit_url_chars w : forall p,
  lang true (Lit p) w -> all_chars XHamster.url_char p = true ->
  all_chars XHamster.url_char w = true.
Proof.
  intros p. revert w. induction p as [|c p IH]; intros w H Hp; simpl in H.
  - apply lang_Eps_inv in H as ->. reflexivity.
  - apply lang_Cat_inv in H as (w1 & w2 & -> & H1 & H2).
    apply lang_Chr_inv in H1 as (d & -> & Hd).
    simpl in Hp. apply andb_true_iff in Hp as [Hc Hp].
    rewrite append_cons. change ("" +:+ w2) with w2. simpl.
    rewrite (IH w2 H2 Hp), andb_true_r.
    unfold chr_eq in Hd. apply Ascii.eqb_eq in Hd.
    now rewrite <- url_char_lower, <- Hd, url_char_lower.
Qed.

Lemma str_in_append4 p a b c d rest :
  str_in p (a +:+ b +:+ c +:+ d +:+ p +:+ rest) = true.
Proof.
  replace (a +:+ b +:+ c +:+ d +:+ p +:+ rest)
    with ((a +:+ b +:+ c +:+ d) +:+ p +:+ rest) by now rewrite !append_assoc.
  apply str_in_append.
Qed.

(** The texts of the two scan patterns: an absolute http or https URL made
    of URL characters that contains the extension. *)
Lemma scan_url_shape host ext w :
  all_chars XHamster.url_char host = true -> lower host = host ->
  all_chars XHamster.url_char ext = true -> lower ext = ext ->
  lang true (Seq [Lit "http"; Opt (Chr "s"); Lit host; Star (Cls XHamster.url_char);
                  Lit ext; Star (Cls XHamster.url_char)]) w ->
  all_chars XHamster.url_char w = true /\
  startswith (lower w) "http" = true /\
  str_in ext (lower w) = true.
Proof.
  intros Hh Hhl He Hel L. cbn [Seq] in L.
  apply lang_Cat_inv in L as (w1 & r1 & -> & L1 & L).
  apply lang_Cat_inv in L as (w2 & r2 & -> & L2 & L).
  apply lang_Cat_inv in L as (w3 & r3 & -> & L3 & L).
  apply lang_Cat_inv in L as (w4 & r4 & -> & L4 & L).
  apply lang_Cat_inv in L as (w5 & r5 & -> & L5 & L).
  apply lang_Cat_inv in L as (w6 & r6 & -> & L6 & L).
  apply lang_Eps_inv in L as ->.
  pose proof (lang_Lit_url_chars _ _ L1 eq_refl) as U1.
  pose proof (lang_Lit_url_chars _ _ L3 Hh) as U3.
  pose proof (lang_Lit_url_chars _ _ L5 He) as U5.
  apply lang_Star_Cls in L4. apply lang_Star_Cls in L6.
  assert (U2 : all_chars XHamster.url_char w2 = true).
  { apply lang_Opt_inv in L2 as [->|L2]; [reflexivity|].
    apply lang_Chr_inv in L2 as (d & -> & Hd). simpl. rewrite andb_true_r.
    unfold chr_eq in Hd. apply Ascii.eqb_eq in Hd.
    now rewrite <- url_char_lower, <- Hd. }
  apply (lang_Lit_ic _ "http") in L1. apply lang_Lit_ic in L5.
  rewrite Hel in L5. change (lower "http") with "http" in L1.
  split; [|split].
  - rewrite !all_chars_app, U1, U2, U3, L4, U5, L6. reflexivity.
  - rewrite lower_append, L1. apply prefix_append.
  - rewrite !lower_append, L5. apply str_in_append4.
Qed.

(** A loop of scan steps adds only candidates whose URL is one of the
    matched texts. *)
Lemma fold_new_from_matches (step : list source -> string -> list source) :
  (forall sources u c, In c (step sources u) -> In c sources \/ url c = u) ->
  forall matches sources c,
    In c (fold_left step matches sources) ->
    In c sources \/ In (url c) matches.
Proof.
  intros Hstep matches. induction matches as [|u matches IH]; intros sources c; simpl.
  - now left.
  - intros H. apply IH in H as [H|H]; [|now right; right].
    apply Hstep in H as [H|H]; [now left | right; now left].
Qed.

Lemma method3_step_url sources u c :
  In c (XHamster.method3_step extract_metadata_from_url sources u) ->
  In c sources \/ url c = u.
Proof.
  unfold XHamster.method3_step.
  destruct (_ && _); [|now left].
  destruct (endswith (lower u) ".m3u8"); [now left|].
  destruct (str_in "thumb" (lower u)); [now left|].
  destruct (any_in XHamster.preview_indicators (lower u)); [now left|].
  rewrite in_app_iff. intros [H|[<-|[]]]; [now left | now right].
Qed.

Lemma method4_step_url sources u c :
  In c (XHamster.method4_step extract_metadata_from_url sources u) ->
  In c sources \/ url c = u.
Proof.
  unfold XHamster.method4_step.
  destruct (_ && _); [|now left].
  destruct (str_in "thumb" (lower u)); [now left|].
  destruct (any_in XHamster.preview_indicators (lower u)); [now left|].
  rewrite in_app_iff. intros [H|[<-|[]]]; [now left | now right].
Qed.

Lemma groups_of_Lit p : groups_of (Lit p) = [].
Proof. induction p as [|c p IH]; simpl; [reflexivity | exact IH]. Qed.

Lemma scan_match_shape host ext html u :
  all_chars XHamster.url_char host = true -> lower host = host ->
  all_chars XHamster.url_char ext = true -> lower ext = ext ->
  In u (map (group 1)
          (findall true
             (Grp 1 (Seq [Lit "http"; Opt (Chr "s"); Lit host;
                          Star (Cls XHamster.url_char); Lit ext;
                          Star (Cls XHamster.url_char)])) html)) ->
  all_chars XHamster.url_char u = true /\
  startswith (lower u) "http" = true /\
  str_in ext (lower u) = true.
Proof.
  intros Hh Hhl He Hel Hin. apply in_map_iff in Hin as (g & <- & Hg).
  apply findall_sound in Hg as (pre & w & post & _ & _ & C).
  destruct (group_lang true _ g 1 C) as (r1 & Hr & Hl); [simpl; tauto|].
  cbn [groups_of Seq] in Hr. rewrite !groups_of_Lit in Hr. simpl in Hr.
  destruct Hr as [[= <-]|[]].
  now apply (scan_url_shape host ext).
Qed.

(** X15. A URL added by the raw scans of xHamster, in whatever page text,
    consists of characters other than blanks, double quotes and angle
    brackets, starts with http in any letter case, and contains .mp4
    (method 3) or .m3u8 (method 4) in any letter case. *)
Theorem xhamster_scan_url_shape (html : string) (sources : list source) (c : source) :
  (In c (XHamster.method3 extract_metadata_from_url html sources) ->
   In c sources \/
   (all_chars XHamster.url_char (url c) = true /\
    startswith (lower (url c)) "http" = true /\
    str_in ".mp4" (lower (url c)) = true)) /\
  (In c (XHamster.method4 extract_metadata_from_url html sources) ->
   In c sources \/
   (all_chars XHamster.url_char (url c) = true /\
    startswith (lower (url c)) "http" = true /\
    str_in ".m3u8" (lower (url c)) = true)).
Proof.
  split; intros H.
  - apply (fold_new_from_matches _ method3_step_url) in H as [H|H]; [now left | right].
    apply (scan_match_shape "://video" ".mp4" html); auto.
  - apply (fold_new_from_matches _ method4_step_url) in H as [H|H]; [now left | right].
    unfold XHamster.hls_patterns in H. cbn [flat_map] in H. rewrite app_nil_r in H.
    apply (scan_match_shape "://" ".m3u8" html); auto.
Qed.

End UrlShapes.

Section UnescapeAgreement.

Lemma delete_char_spec a s : replace s (String a "") "" = without_char a s.
Proof.
  unfold replace. induction s as [|c s IH]; [reflexivity|].
  cbn [replace_from without_char]. rewrite prefix_single.
  destruct (Ascii.eqb a c); [exact IH | now rewrite IH].
Qed.

Lemma prefix_pair a c s :
  String.prefix (String a (String a "")) (String c s) = true ->
  c = a /\ exists s', s = String a s'.
Proof.
  destruct s as [|d s]; simpl; destruct (ascii_dec a c) as [<-|]; try discriminate.
  destruct (ascii_dec a d) as [<-|]; [|discriminate]. eauto.
Qed.

(** Deleting the pairs of a character first does not change what is left
    once every occurrence is deleted. *)
Lemma delete_pairs_then_all a s : forall skip,
  skip = 0 \/ (skip = 1 /\ exists s', s = String a s') ->
  without_char a (replace_from (String a (String a "")) "" skip s) = without_char a s.
Proof.
  induction s as [|c s IH]; intros skip Hs; [reflexivity|].
  cbn [replace_from]. destruct Hs as [->|(-> & s' & Heq)]; [|injection Heq as -> _].
  - destruct (String.prefix (String a (String a "")) (String c s)) eqn:Hp.
    + apply prefix_pair in Hp as (-> & s' & ->).
      change (String.length (String a (String a "")) - 1) with 1.
      change ("" +:+ ?x) with x.
      rewrite IH by (right; eauto).
      cbn [without_char]. now rewrite Ascii.eqb_refl.
    + cbn [without_char]. rewrite IH by now left. reflexivity.
  - rewrite IH by now left. cbn [without_char]. now rewrite Ascii.eqb_refl.
Qed.

(** X16. The unescape transforms of xHamster and of XNXX give the same
    text for every input: the separate removal of doubled backslashes in
    xHamster changes nothing once all backslashes are removed. *)
Theorem unescape_transforms_agree (s : string) :
  XHamster.unescape s = XNXX.unescape s.
Proof.
  unfold XHamster.unescape, XNXX.unescape.
  rewrite !delete_char_spec. unfold replace at 1.
  apply delete_pairs_then_all. now left.
Qed.

End UnescapeAgreement.

(** ** Instances of the further properties *)

Lemma resolved_result_fields_witness :
  update_result (self_resolve_result (titled_resolver "https://www.xvideos.com/v1"))
    "https://cdn/v720.mp4" None ∅ "progressive" !! "title" = Some (RStr "a title").
Proof.
  assert (H : XVideos.resolve_url QualityUtils.extract_metadata_from_url no_json
                first_candidate recorder_kind (fetch_page high_setter_page)
                (titled_resolver "https://www.xvideos.com/v1")
              = Ret (Some (update_result
                             (self_resolve_result (titled_resolver "https://www.xvideos.com/v1"))
                             "https://cdn/v720.mp4" None ∅ "progressive"))).
  { unfold XVideos.resolve_url, XVideos.resolve_body.
    change (no_text (page (fetch_page high_setter_page
                             (self_url (titled_resolver "https://www.xvideos.com/v1"))
                             "https://www.xvideos.com"))) with false.
    cbv iota.
    change (default "" (page (fetch_page high_setter_page
                                (self_url (titled_resolver "https://www.xvideos.com/v1"))
                                "https://www.xvideos.com"))) with high_setter_page.
    replace (XVideos._extract_sources QualityUtils.extract_metadata_from_url no_json
               high_setter_page)
      with [Source "https://cdn/v720.mp4" (PStr "720p") "mp4"]
      by (vm_compute; reflexivity).
    reflexivity. }
  destruct (proj1 (resolved_result_fields QualityUtils.extract_metadata_from_url no_json
                     first_candidate recorder_kind (fetch_page high_setter_page)
                     (fun _ => []) (fun _ => []) (fun _ u => u)
                     (titled_resolver "https://www.xvideos.com/v1") _) H)
    as (html & _ & _ & _ & _ & _ & _ & _ & Hother).
  rewrite Hother; [reflexivity|]. simpl. intuition discriminate.
Defined.

Lemma xhamster_result_fields_witness :
  exists h',
    update_result (self_resolve_result (titled_resolver "https://xhamster.com/videos/a-1"))
      "https://cdn/a.m3u8"
      (XHamster.with_cdn_headers (Some {["User-Agent" := "agent"]})) ∅ "segmented"
      !! "session" = Some (RSession (Some h')) /\
    h' !! "Referer" = Some "https://xhamster.com/" /\
    h' !! "User-Agent" = Some "agent".
Proof.
  assert (H : XHamster.resolve_url QualityUtils.extract_metadata_from_url no_json
                first_candidate recorder_kind (fetch_with_session "https://cdn/a.m3u8")
                placeholder_is_template placeholder_resolve
                (titled_resolver "https://xhamster.com/videos/a-1")
              = Ret (Some (update_result
                             (self_resolve_result
                                (titled_resolver "https://xhamster.com/videos/a-1"))
                             "https://cdn/a.m3u8"
                             (XHamster.with_cdn_headers (Some {["User-Agent" := "agent"]}))
                             ∅ "segmented"))).
  { unfold XHamster.resolve_url.
    change (no_text (page (fetch_with_session "https://cdn/a.m3u8"
                             (self_url (titled_resolver "https://xhamster.com/videos/a-1"))
                             "https://xhamster.com"))) with false.
    cbv iota.
    change (default "" (page (fetch_with_session "https://cdn/a.m3u8"
                                (self_url (titled_resolver "https://xhamster.com/videos/a-1"))
                                "https://xhamster.com"))) with "https://cdn/a.m3u8".
    replace (XHamster._parse_html_for_sources QualityUtils.extract_metadata_from_url
               no_json "https://cdn/a.m3u8")
      with (Ret (Some [Source "https://cdn/a.m3u8" (PStr "adaptive") "m3u8"]))
      by (vm_compute; reflexivity).
    reflexivity. }
  destruct (xhamster_result_fields QualityUtils.extract_metadata_from_url no_json
              first_candidate recorder_kind (fetch_with_session "https://cdn/a.m3u8")
              placeholder_is_template placeholder_resolve
              (titled_resolver "https://xhamster.com/videos/a-1") _ H)
    as (html & sources & _ & _ & _ & _ & _ & _ & _ & _ & h' & Hs & Hr & _ & Hk).
  exists h'. split; [exact Hs|]. split; [exact Hr|].
  rewrite Hk by discriminate. reflexivity.
Defined.

Lemma resolvers_return_none_witness :
  XVideos.resolve_url QualityUtils.extract_metadata_from_url no_json no_winner
    recorder_kind (fetch_page "no player on this page") video_page_resolver = Ret None.
Proof.
  apply (proj2 (proj2 (proj1 (resolvers_return_none
           QualityUtils.extract_metadata_from_url no_json no_winner recorder_kind
           (fetch_page "no player on this page") (fun _ => []) (fun _ => [])
           (fun _ u => u) placeholder_is_template placeholder_resolve
           video_page_resolver)))
           "no player on this page").
  - reflexivity.
  - vm_compute. reflexivity.
  - vm_compute. reflexivity.
Defined.

Lemma collected_quality_not_empty_witness :
  truthy (quality (Source "https://cdn/v720.mp4" (PStr "720p") "mp4")) = true.
Proof.
  apply (proj1 (collected_quality_not_empty QualityUtils.extract_metadata_from_url
                  no_json (fun _ => []) (fun _ => []) (fun _ u => u)
                  "https://www.xvideos.com/v1" high_setter_page
                  (Source "https://cdn/v720.mp4" (PStr "720p") "mp4"))).
  vm_compute. tauto.
Defined.

Lemma xhamster_methods_append_witness :
  NoDup (map url (XHamster.method4 QualityUtils.extract_metadata_from_url preview_hls_page
                    (XHamster.method3 QualityUtils.extract_metadata_from_url
                       preview_hls_page []))).
Proof.
  apply (proj1 (proj2 (proj2 (xhamster_methods_append
           QualityUtils.extract_metadata_from_url no_json preview_hls_page [])))).
  constructor.
Defined.

Lemma xvideos_json_ld_step_witness :
  XVideos._extract_sources QualityUtils.extract_metadata_from_url decode_five
    setter_and_json_ld_page = [].
Proof.
  assert (Hs : Re.search false XVideos.json_ld_pattern setter_and_json_ld_page
               = Some [(1, "5")]) by (vm_compute; reflexivity).
  exact (proj2 (proj1 (proj2 (xvideos_json_ld_step QualityUtils.extract_metadata_from_url
                                decode_five setter_and_json_ld_page))
                  [(1, "5")] Hs) (PInt 5) eq_refl).
Defined.

Lemma xhamster_parser_exceptions_witness :
  is_JSONDecodeError TypeError = false /\ is_AttributeError TypeError = false /\
  (TypeError = TypeError \/ exists t, decode_number_sources t = Raise TypeError).
Proof.
  apply (xhamster_parser_exceptions QualityUtils.extract_metadata_from_url
           decode_number_sources number_sources_page TypeError).
  vm_compute. reflexivity.
Defined.

Lemma xnxx_json_ld_errors_witness :
  XNXX.json_ld_step QualityUtils.extract_metadata_from_url no_json [] "not json" = Ret [].
Proof.
  apply (proj1 (xnxx_json_ld_errors QualityUtils.extract_metadata_from_url no_json
                  [] "not json") JSONDecodeError); reflexivity.
Defined.

Lemma xhamster_scan_url_shape_witness :
  str_in ".m3u8" (lower "https://cdn/a.m3u8") = true.
Proof.
  destruct (proj2 (xhamster_scan_url_shape QualityUtils.extract_metadata_from_url
                     preview_hls_page []
                     (Source "https://cdn/a.m3u8" (PStr "adaptive") "m3u8")))
    as [[]|(_ & _ & H)]; [|exact H].
  vm_compute. tauto.
Defined.
